(** * Verification of the video/audio downloader front-end (app.py)

    A shallow embedding of the application-owned logic of [app.py]:
    the URL validator, the platform identifier, the option builder, the
    download orchestrator and the two handlers of [main] that mutate the
    session state.

    Data model.
    - A Python [str] is a sequence of Unicode code points: [list N].
      String literals of the source are transcribed code point by code
      point (the non-ASCII literals of app.py are given as numbers).
    - [bytes] is [list Byte.byte].
    - The dictionaries handed to yt-dlp are [gmap str pyval]; dictionaries
      nested inside a value are association lists in insertion order.
    - The external world (file system, network) is an explicit state on
      which the yt-dlp calls act as arbitrary functions. *)

From Stdlib Require Import NArith ZArith List Bool Lia String Ascii.
From Stdlib Require Strings.Byte.
From stdpp Require Import gmap list.

#[local] Set Warnings "-register-all".
Local Open Scope N_scope.

(* ===================================================================== *)
(** * Python strings *)
(* ===================================================================== *)

Module PyStr.

(** A Python [str]: the sequence of its code points. *)
Definition str := list N.

(** An ASCII literal of the source. *)
Definition py (s : string) : str :=
  N_of_ascii <$> list_ascii_of_string s.
Arguments py : simpl never.

(** [bool(s)] for a string. *)
Definition truthy (s : str) : bool :=
  match s with [] => false | _ => true end.

(** [str.isspace] on one code point (CPython's [_PyUnicode_IsWhitespace]);
    the same table is behind [str.strip()] and the [\s] / [\S] classes
    of [re] on [str] patterns. *)
Definition is_space (c : N) : bool :=
  ((9 <=? c) && (c <=? 13)) || ((28 <=? c) && (c <=? 32)) ||
  (c =? 133) || (c =? 160) || (c =? 5760) ||
  ((8192 <=? c) && (c <=? 8202)) || (c =? 8232) || (c =? 8233) ||
  (c =? 8239) || (c =? 8287) || (c =? 12288).

Fixpoint lstrip (s : str) : str :=
  match s with
  | c :: rest => if is_space c then lstrip rest else s
  | [] => []
  end.

Definition rstrip (s : str) : str := rev (lstrip (rev s)).

(** [s.strip()] *)
Definition strip (s : str) : str := rstrip (lstrip s).

(** [s[:n]] for [n >= 0]. *)
Definition slice_to (n : nat) (s : str) : str := take n s.

(** [s.startswith(p)] *)
Fixpoint starts_with (p s : str) : bool :=
  match p, s with
  | [], _ => true
  | a :: p', b :: s' => (a =? b) && starts_with p' s'
  | _ :: _, [] => false
  end.

(** [needle in hay] *)
Fixpoint str_in (needle hay : str) : bool :=
  starts_with needle hay ||
  match hay with
  | [] => false
  | _ :: rest => str_in needle rest
  end.

(** The specification of [in]: the needle occurs as a contiguous block. *)
Definition occurs (needle hay : str) : Prop :=
  exists before after, hay = before ++ needle ++ after.

(** ASCII part of [str.lower()]. *)
Definition ascii_lower (c : N) : N :=
  if (65 <=? c) && (c <=? 90) then c + 32 else c.

Definition is_ascii (c : N) : bool := c <? 128.

(** What the model takes from the Unicode database of the running
    interpreter, for code points outside ASCII. *)
Class Unicode := {
  (** The lower-case expansion of a non-ASCII code point.  It may depend
      on the neighbours of the code point (Greek final sigma) and may
      produce ASCII letters (U+212A KELVIN SIGN gives [k], U+0130 gives
      [i] followed by U+0307). *)
  unicode_lower : str -> N -> str -> str;
  (** Whether a non-ASCII code point is a decimal digit (category Nd). *)
  unicode_decimal : N -> bool;
  (** Whether a non-ASCII code point is printable ([str.isprintable]):
      [repr] writes the others as escapes. *)
  unicode_printable : N -> bool
}.

Section Lower.

Context {U : Unicode}.

Definition lower_cp (before : str) (c : N) (after : str) : str :=
  if is_ascii c then [ascii_lower c] else unicode_lower before c after.

Fixpoint lower_from (before s : str) : str :=
  match s with
  | [] => []
  | c :: rest => lower_cp before c rest ++ lower_from (before ++ [c]) rest
  end.

(** [s.lower()] *)
Definition lower (s : str) : str := lower_from [] s.

End Lower.

(** [repr(s)] for a string (CPython's [unicode_repr]). *)

(** One digit of [0123456789abcdef]. *)
Definition hex_digit (d : N) : N := if d <? 10 then 48 + d else 87 + d.

(** The last [width] hexadecimal digits of [n]. *)
Fixpoint hex_fixed (width : nat) (n : N) : str :=
  match width with
  | O => []
  | S w => hex_fixed w (n / 16) ++ [hex_digit (n mod 16)]
  end.

(** The quote that encloses the text: a double quote when the string
    has single quotes and no double quote, a single quote otherwise. *)
Definition repr_quote (s : str) : N :=
  if existsb (N.eqb 39) s && negb (existsb (N.eqb 34) s) then 34 else 39.

Section Repr.

Context {U : Unicode}.

(** What [repr] writes for one code point between quotes [quote]:
    the quote in use and the backslash behind a backslash; tab, line
    feed and carriage return as [\t], [\n], [\r]; the other ASCII
    controls as [\xhh]; a code point outside ASCII that is not
    printable as [\xhh], [\uhhhh] or [\Uhhhhhhhh] by its size; any
    other code point as it is. *)
Definition repr_cp (quote c : N) : str :=
  if (c =? quote) || (c =? 92) then [92; c]
  else if c =? 9 then [92; 116]
  else if c =? 10 then [92; 110]
  else if c =? 13 then [92; 114]
  else if (c <? 32) || (c =? 127) then [92; 120] ++ hex_fixed 2 c
  else if c <? 127 then [c]
  else if unicode_printable c then [c]
  else if c <=? 255 then [92; 120] ++ hex_fixed 2 c
  else if c <=? 65535 then [92; 117] ++ hex_fixed 4 c
  else [92; 85] ++ hex_fixed 8 c.

(** [repr(s)] *)
Definition py_repr (s : str) : str :=
  let quote := repr_quote s in
  [quote] ++ flat_map (repr_cp quote) s ++ [quote].

End Repr.

(** A database under which no code point outside ASCII is a digit or
    changes when lowered, and all of them are printable; used to run
    the model on examples (ASCII inputs do not consult the database). *)
Definition plain_unicode : Unicode :=
  {| unicode_lower := fun _ c _ => [c];
     unicode_decimal := fun _ => false;
     unicode_printable := fun _ => true |}.

(** A string that [repr] only puts between single quotes: printable
    ASCII with no single quote and no backslash. *)
Definition repr_plain (s : str) : Prop :=
  Forall (fun c => 32 <= c /\ c < 127 /\ c <> 39 /\ c <> 92) s.

(** A string made of code points that [lower] leaves alone whatever
    surrounds them: ASCII other than the capital letters. *)
Definition lower_stable (s : str) : Prop :=
  Forall (fun c => is_ascii c = true /\ ascii_lower c = c) s.

End PyStr.

Import PyStr.

(* ===================================================================== *)
(** * Regular expressions: the part of [re] that [validate_url] uses *)
(* ===================================================================== *)

Module Regex.

(** Patterns over code points.  A character class is its membership
    test. *)
Inductive regex :=
| Empty
| Eps
| Cls (p : N -> bool)
| Seq (a b : regex)
| Alt (a b : regex)
| Star (a : regex).

(** [r?], [r+], [r{lo,hi}] and a run of single-character classes. *)
Definition Opt (r : regex) : regex := Alt r Eps.
Definition Plus (r : regex) : regex := Seq r (Star r).

Fixpoint repeat_exact (n : nat) (r : regex) : regex :=
  match n with
  | O => Eps
  | S n' => Seq r (repeat_exact n' r)
  end.

Fixpoint repeat_upto (n : nat) (r : regex) : regex :=
  match n with
  | O => Eps
  | S n' => Opt (Seq r (repeat_upto n' r))
  end.

Definition Repeat (lo hi : nat) (r : regex) : regex :=
  Seq (repeat_exact lo r) (repeat_upto (hi - lo) r).

Fixpoint word (cls : N -> N -> bool) (w : str) (tail : regex) : regex :=
  match w with
  | [] => tail
  | c :: w' => Seq (Cls (cls c)) (word cls w' tail)
  end.

(** The strings a pattern matches in full. *)
Inductive lang : regex -> str -> Prop :=
| lang_eps : lang Eps []
| lang_cls p c : p c = true -> lang (Cls p) [c]
| lang_seq a b s t : lang a s -> lang b t -> lang (Seq a b) (s ++ t)
| lang_alt_l a b s : lang a s -> lang (Alt a b) s
| lang_alt_r a b s : lang b s -> lang (Alt a b) s
| lang_star_nil a : lang (Star a) []
| lang_star_app a s t : lang a s -> lang (Star a) t -> lang (Star a) (s ++ t).

(** Matching by derivatives.  The patterns here have no back-references
    or look-around, so the backtracking search of [re] finds a match
    exactly when the string is in the language of the pattern. *)
Fixpoint nullable (r : regex) : bool :=
  match r with
  | Empty => false
  | Eps => true
  | Cls _ => false
  | Seq a b => nullable a && nullable b
  | Alt a b => nullable a || nullable b
  | Star _ => true
  end.

Definition seq' (a b : regex) : regex :=
  match a with
  | Empty => Empty
  | Eps => b
  | _ => match b with Empty => Empty | _ => Seq a b end
  end.

Definition alt' (a b : regex) : regex :=
  match a with
  | Empty => b
  | _ => match b with Empty => a | _ => Alt a b end
  end.

Fixpoint deriv (c : N) (r : regex) : regex :=
  match r with
  | Empty => Empty
  | Eps => Empty
  | Cls p => if p c then Eps else Empty
  | Seq a b =>
      alt' (seq' (deriv c a) b) (if nullable a then deriv c b else Empty)
  | Alt a b => alt' (deriv c a) (deriv c b)
  | Star a => seq' (deriv c a) (Star a)
  end.

Fixpoint matches (r : regex) (s : str) : bool :=
  match s with
  | [] => nullable r
  | c :: s' => matches (deriv c r) s'
  end.

End Regex.

(* ===================================================================== *)
(** * URL validator: [validate_url] *)
(* ===================================================================== *)

Module Validator.

Import Regex.

Definition in_range (lo hi c : N) : bool := (lo <=? c) && (c <=? hi).

(** Code points outside ASCII that [re.IGNORECASE] on a [str] pattern
    identifies with an ASCII letter: U+0130 and U+0131 with [i], U+212A
    with [k], U+017F with [s]. *)
Definition ignorecase_extras (lo : N) : list N :=
  if lo =? 105 then [304; 305]
  else if lo =? 107 then [8490]
  else if lo =? 115 then [383]
  else [].

(** A literal character of the pattern under [re.IGNORECASE]. *)
Definition lit_i (c x : N) : bool :=
  (ascii_lower x =? ascii_lower c) ||
  existsb (N.eqb x) (ignorecase_extras (ascii_lower c)).

(** [[A-Z]] under [re.IGNORECASE]. *)
Definition letter_i (x : N) : bool :=
  in_range 65 90 x || in_range 97 122 x ||
  existsb (N.eqb x) [304; 305; 383; 8490].

(** [[A-Z0-9]] and [[A-Z0-9-]] under [re.IGNORECASE]. *)
Definition alnum_i (x : N) : bool := letter_i x || in_range 48 57 x.
Definition alnum_dash_i (x : N) : bool := alnum_i x || (x =? 45).

(** [[/?]] *)
Definition slash_or_query (x : N) : bool := (x =? 47) || (x =? 63).

Definition is_newline (x : N) : bool := x =? 10.

Section WithUnicode.

Context {U : Unicode}.

(** [\d] on a [str] pattern: any Unicode decimal digit. *)
Definition digit (x : N) : bool :=
  if is_ascii x then in_range 48 57 x else unicode_decimal x.

(** [\S] *)
Definition non_space (x : N) : bool := negb (is_space x).

(** [(?:[A-Z0-9](?:[A-Z0-9-]{0,61}[A-Z0-9])?\.)] *)
Definition domain_label : regex :=
  Seq (Cls alnum_i)
    (Seq (Opt (Seq (Repeat 0 61 (Cls alnum_dash_i)) (Cls alnum_i)))
         (Cls (lit_i 46))).

(** [(?:...)+[A-Z]{2,6}\.?] *)
Definition domain_name : regex :=
  Seq (Plus domain_label)
    (Seq (Repeat 2 6 (Cls letter_i)) (Opt (Cls (lit_i 46)))).

(** [\d{1,3}\.\d{1,3}\.\d{1,3}\.\d{1,3}] *)
Definition ipv4 : regex :=
  let octet := Repeat 1 3 (Cls digit) in
  let dot := Cls (lit_i 46) in
  Seq octet (Seq dot (Seq octet (Seq dot (Seq octet (Seq dot octet))))).

Definition host : regex :=
  Alt domain_name (Alt (word lit_i (py "localhost") Eps) ipv4).

(** [(?::\d+)?] *)
Definition port : regex := Opt (Seq (Cls (lit_i 58)) (Plus (Cls digit))).

(** [(?:/?|[/?]\S+)] *)
Definition path : regex :=
  Alt (Opt (Cls (lit_i 47))) (Seq (Cls slash_or_query) (Plus (Cls non_space))).

(** [$] without [re.MULTILINE]: the end of the string, or just before
    a newline that ends the string. *)
Definition dollar : regex := Opt (Cls is_newline).

(** What follows the scheme in the pattern. *)
Definition after_scheme : regex := Seq host (Seq port (Seq path dollar)).

(** The compiled pattern,
    [^https?://(?:...|localhost|...)(?::\d+)?(?:/?|[/?]\S+)$] with
    [re.IGNORECASE].  [pattern.match] anchors at the start of the string
    and [$] at its end, so the string is accepted when it is in the
    language of the whole pattern. *)
Definition url_pattern : regex :=
  word lit_i (py "http")
    (Seq (Opt (Cls (lit_i 115)))
         (word lit_i (py "://") after_scheme)).

Definition validate_url (url : str) : bool :=
  if negb (truthy url) || negb (truthy (strip url)) then false
  else matches url_pattern (strip url).

End WithUnicode.

(** How [re.IGNORECASE] compares a pattern word with the text. *)
Definition pattern_ci (w text : str) : Prop :=
  Forall2 (fun c x => lit_i c x = true) w text.

(** The input [http] U+017F [://example.com]. *)
Definition long_s_url : str := py "http" ++ [383] ++ py "://example.com".

(** A string contains an http or https scheme when [http://] or
    [https://] occurs in it, letters compared without regard to ASCII
    case. *)
Definition contains_http_scheme (s : str) : Prop :=
  occurs (py "http://") (ascii_lower <$> s) \/
  occurs (py "https://") (ascii_lower <$> s).

End Validator.

(* ===================================================================== *)
(** * Platform identifier: [get_platform_name] *)
(* ===================================================================== *)

Module Platform.

(** The [platforms] dictionary, in insertion order (the order in which
    [platforms.items()] yields its entries). *)
Definition platforms : list (str * str) :=
  [ (py "youtube.com", py "YouTube");
    (py "youtu.be", py "YouTube");
    (py "tiktok.com", py "TikTok");
    (py "instagram.com", py "Instagram");
    (py "facebook.com", py "Facebook");
    (py "twitter.com", py "X (Twitter)");
    (py "x.com", py "X (Twitter)");
    (py "vimeo.com", py "Vimeo");
    (py "dailymotion.com", py "Dailymotion");
    (py "twitch.tv", py "Twitch");
    (py "reddit.com", py "Reddit");
    (py "soundcloud.com", py "SoundCloud");
    (py "spotify.com", py "Spotify") ].

(** The label returned after the loop (the source's non-ASCII literal,
    code point by code point). *)
Definition other_label : str := [215; 215; 8212; 215; 168].

Section WithUnicode.

Context {U : Unicode}.

(** [for domain, name in items: if domain in url.lower(): return name] *)
Fixpoint platform_loop (items : list (str * str)) (url : str) : option str :=
  match items with
  | [] => None
  | (domain, name) :: rest =>
      if str_in domain (lower url) then Some name
      else platform_loop rest url
  end.

Definition get_platform_name (url : str) : str :=
  match platform_loop platforms url with
  | Some name => name
  | None => other_label
  end.

End WithUnicode.

End Platform.

(* ===================================================================== *)
(** * Option builder: [build_ydl_options] *)
(* ===================================================================== *)

Module Options.

(** Values stored in the option dictionary. *)
Inductive pyval :=
| PNone
| PBool (b : bool)
| PInt (z : Z)
| PStr (s : str)
| PList (items : list pyval)
| PDict (entries : list (str * pyval)).

(** [posixpath.join] of two components. *)
Definition ends_with_sep (p : str) : bool :=
  match last p with Some c => c =? 47 | None => false end.

Definition path_join (a b : str) : str :=
  if starts_with (py "/") b then b
  else if negb (truthy a) || ends_with_sep a then a ++ b
  else a ++ py "/" ++ b.

(** [d.get(key, fallback)] *)
Definition dict_get {V : Type} (d : gmap str V) (key : str) (fallback : V) : V :=
  default fallback (d !! key).

(** The key of the first entry of both quality tables (the source's
    non-ASCII literal for the best tier). *)
Definition best_label : str :=
  [215; 8221; 215; 8250; 215; 8482; 32; 215; 732; 215; 8226; 215; 8216].

Definition user_agent : str :=
  py "Mozilla/5.0 (Windows NT 10.0; Win64; x64) AppleWebKit/537.36 (KHTML, like Gecko) Chrome/120.0.0.0 Safari/537.36".

Definition video_quality_map : gmap str str :=
  list_to_map
    [ (best_label, py "bestvideo+bestaudio/best");
      (py "4K (2160p)", py "bestvideo[height<=2160]+bestaudio/best[height<=2160]");
      (py "1080p", py "bestvideo[height<=1080]+bestaudio/best[height<=1080]");
      (py "720p", py "bestvideo[height<=720]+bestaudio/best[height<=720]") ].

Definition audio_quality_map : gmap str str :=
  list_to_map
    [ (best_label, py "0");
      (py "192kbps", py "192");
      (py "128kbps", py "128") ].

Definition audio_format_map : gmap str str :=
  list_to_map
    [ (py "mp3", py "mp3");
      (py "m4a", py "m4a");
      (py "wav", py "wav") ].

Definition build_ydl_options
    (temp_dir download_type extension quality : str) : gmap str pyval :=
  let base_opts : gmap str pyval :=
    list_to_map
      [ (py "outtmpl", PStr (path_join temp_dir (py "%(title)s.%(ext)s")));
        (py "quiet", PBool false);
        (py "no_warnings", PBool false);
        (py "merge_output_format",
           if decide (download_type = py "video") then PStr extension else PNone);
        (py "postprocessor_args", PList [PStr (py "-y")]);
        (py "http_headers",
           PDict [ (py "User-Agent", PStr user_agent);
                   (py "Accept",
                      PStr (py "text/html,application/xhtml+xml,application/xml;q=0.9,*/*;q=0.8"));
                   (py "Accept-Language", PStr (py "en-US,en;q=0.5")) ]) ] in
  if decide (download_type = py "video") then
    let base_opts :=
      <[py "format" :=
          PStr (dict_get video_quality_map quality (py "bestvideo+bestaudio/best"))]>
        base_opts in
    if decide (extension = py "mp4") then
      <[py "postprocessors" :=
          PList [PDict [ (py "key", PStr (py "FFmpegVideoConvertor"));
                         (py "preferedformat", PStr (py "mp4")) ]]]> base_opts
    else if decide (extension = py "mkv") then
      <[py "merge_output_format" := PStr (py "mkv")]> base_opts
    else if decide (extension = py "webm") then
      <[py "merge_output_format" := PStr (py "webm")]> base_opts
    else base_opts
  else
    let audio_quality := dict_get audio_quality_map quality (py "0") in
    let audio_format := dict_get audio_format_map extension (py "mp3") in
    let base_opts := <[py "format" := PStr (py "bestaudio/best")]> base_opts in
    <[py "postprocessors" :=
        PList [PDict [ (py "key", PStr (py "FFmpegExtractAudio"));
                       (py "preferredcodec", PStr audio_format);
                       (py "preferredquality", PStr audio_quality) ]]]> base_opts.

(** The selector of a height-capped tier: best video and best audio
    under the cap, or the best combined stream under the cap. *)
Definition height_capped_selector (cap : str) : str :=
  py "bestvideo[height<=" ++ cap ++ py "]+bestaudio/best[height<=" ++ cap ++ py "]".

End Options.

(* ===================================================================== *)
(** * The world outside the application, and effects *)
(* ===================================================================== *)

Module World.

Import Options.

Definition bytes := list Byte.byte.

(** An entry of a directory: a regular file with its content, or a
    directory with its own entries. *)
Inductive node :=
| File (data : bytes)
| Dir (entries : list (str * node)).

(** The world: the directories of the file system by path, each with its
    entries in the order in which the system enumerates them, and
    whatever else the external calls depend on (network, clock). *)
Record env (outside : Type) := Env {
  fs : gmap str (list (str * node));
  beyond : outside
}.
Arguments Env {outside}.
Arguments fs {outside}.
Arguments beyond {outside}.

Definition set_fs {O : Type}
    (f : gmap str (list (str * node)) -> gmap str (list (str * node)))
    (w : env O) : env O :=
  Env (f (fs w)) (beyond w).

(** The entries of a directory in enumeration order; nothing when the
    directory is not there. *)
Definition listing {O : Type} (w : env O) (dir : str) : list (str * node) :=
  default [] (fs w !! dir).

(** A raised exception: whether [except Exception] catches it, and its
    [str()]. *)
Record exn := Exn {
  exn_is_exception : bool;
  exn_text : str
}.

(** [Exception(text)] *)
Definition Exception (text : str) : exn := Exn true text.

Inductive outcome (A : Type) :=
| Returns (value : A)
| Raises (e : exn).
Arguments Returns {A}.
Arguments Raises {A}.

(** The collaborators that the application calls and does not own. *)
Class Externals := {
  outside : Type;
  (** [with yt_dlp.YoutubeDL(opts) as ydl: ydl.extract_info(url, download=False)] *)
  ydl_extract_info :
    gmap str pyval -> str -> env outside ->
    env outside * outcome (option (gmap str pyval));
  (** [with yt_dlp.YoutubeDL(opts) as ydl: ydl.download([url])] *)
  ydl_download :
    gmap str pyval -> str -> env outside -> env outside * outcome unit;
  (** the path that [tempfile.TemporaryDirectory()] creates *)
  mkdtemp : env outside -> str;
  (** [datetime.now().strftime("%H:%M:%S")] *)
  now_hms : env outside -> str;
  (** [str(v)] for a value that is not a string *)
  str_of_other : pyval -> str
}.

(** What the page shows. *)
Inductive element :=
| Markdown (body : str)
| ErrorBox (body : str)
| SuccessBox (body : str).

(** The record that [extract_metadata] builds; it always has these
    eight keys. *)
Record metadata := Metadata {
  md_title : pyval;
  md_duration : pyval;
  md_thumbnail : pyval;
  md_uploader : pyval;
  md_view_count : pyval;
  md_platform : str;
  md_url : str;
  md_formats : pyval
}.

(** [st.session_state]: the three keys the application owns.  A key that
    is absent and a key that holds [None] are the same field value here,
    so the initialisation at the top of [main] (set to [None] when
    absent) leaves the record as it is. *)
Record session_state := Session {
  ss_metadata : option metadata;
  ss_file_ready : option bytes;
  ss_file_name : option str
}.

Section Effects.

Context {E : Externals}.

Record state := State {
  world : env outside;
  session : session_state;
  page : list element;
  terminal : list (str * str)
}.

(** A computation: it transforms the state and returns or raises. *)
Definition M (A : Type) : Type := state -> state * outcome A.

Definition ret {A} (a : A) : M A := fun st => (st, Returns a).

Definition raise {A} (e : exn) : M A := fun st => (st, Raises e).

Definition bind {A B} (m : M A) (k : A -> M B) : M B := fun st =>
  match m st with
  | (st', Returns a) => k a st'
  | (st', Raises e) => (st', Raises e)
  end.

(** [try: body / except Exception as e: handler e] *)
Definition try_except {A} (body : M A) (handler : exn -> M A) : M A :=
  fun st =>
    match body st with
    | (st', Raises e) =>
        if exn_is_exception e then handler e st' else (st', Raises e)
    | returned => returned
    end.

(** An external call acts on the world only. *)
Definition external {A} (call : env outside -> env outside * outcome A) : M A :=
  fun st =>
    let (w', r) := call (world st) in
    (State w' (session st) (page st) (terminal st), r).

Definition get_world : M (env outside) := fun st => (st, Returns (world st)).

Definition get_session : M session_state := fun st => (st, Returns (session st)).

Definition put_session (s : session_state) : M unit := fun st =>
  (State (world st) s (page st) (terminal st), Returns tt).

Definition show (e : element) : M unit := fun st =>
  (State (world st) (session st) (page st ++ [e]) (terminal st), Returns tt).

Definition logger (level message : str) : M unit := fun st =>
  (State (world st) (session st) (page st) (terminal st ++ [(level, message)]),
   Returns tt).

(** [with tempfile.TemporaryDirectory() as temp_dir: body]: the
    directory is created empty and is removed with all it holds when
    the block is left, by return or by exception. *)
Definition with_temporary_directory {A} (body : str -> M A) : M A := fun st =>
  let temp_dir := mkdtemp (world st) in
  let created :=
    State (set_fs (insert temp_dir []) (world st))
          (session st) (page st) (terminal st) in
  let (st', r) := body temp_dir created in
  (State (set_fs (delete temp_dir) (world st'))
         (session st') (page st') (terminal st'), r).

(** A computation that leaves the session state as it found it. *)
Definition keeps_session {A} (m : M A) : Prop :=
  forall st, session (fst (m st)) = session st.

End Effects.

Declare Scope effect_scope.
Delimit Scope effect_scope with effect.
Notation "'let*' x ':=' m 'in' k" := (bind m (fun x => k))
  (at level 10, x pattern, m at level 100, k at level 200) : effect_scope.

End World.

(* ===================================================================== *)
(** * Logging, metadata extraction, download orchestrator *)
(* ===================================================================== *)

Module Orchestrator.

Import Options World.
Local Open Scope effect_scope.

(** line 577: no downloaded file was found *)
Definition no_file_message : str :=
  [215; 339; 215; 32; 215; 160; 215; 215; 166; 215; 32; 215; 167; 215;
   8226; 215; 8216; 215; 165; 32; 215; 169; 215; 8221; 215; 8226; 215;
   168; 215; 8220].

(** The double quote character. *)
Definition dquote : str := [34].

Section WithExternals.

Context {U : Unicode} {E : Externals}.

(** [log_to_console(message, level)] *)
Definition log_to_console (message level : str) : M unit :=
  let* w := get_world in
  let timestamp := now_hms w in
  let formatted := py "[" ++ timestamp ++ py "] " ++ message in
  if decide (level = py "error") then
    let* _ := logger (py "error") message in
    show (Markdown (py "<script>console.error(" ++ dquote ++ formatted
                    ++ dquote ++ py ")</script>"))
  else if decide (level = py "warning") then
    let* _ := logger (py "warning") message in
    show (Markdown (py "<script>console.warn(" ++ dquote ++ formatted
                    ++ dquote ++ py ")</script>"))
  else
    let* _ := logger (py "info") message in
    show (Markdown (py "<script>console.log(" ++ dquote ++ formatted
                    ++ dquote ++ py ")</script>")).

(** [str(v)] inside an f-string *)
Definition str_of (v : pyval) : str :=
  match v with
  | PStr s => s
  | other => str_of_other other
  end.

(** [bool(info)] for what [extract_info] returns *)
Definition info_truthy (info : option (gmap str pyval)) : bool :=
  match info with
  | Some d => negb (Nat.eqb (size d) 0)
  | None => false
  end.

Definition metadata_ydl_opts : gmap str pyval :=
  list_to_map
    [ (py "quiet", PBool true);
      (py "no_warnings", PBool true);
      (py "extract_flat", PBool false);
      (py "skip_download", PBool true);
      (py "socket_timeout", PInt 30);
      (py "retries", PInt 3);
      (py "fragment_retries", PInt 3);
      (py "http_headers",
         PDict [ (py "User-Agent", PStr user_agent);
                 (py "Accept",
                    PStr (py "text/html,application/xhtml+xml,application/xml;q=0.9,*/*;q=0.8"));
                 (py "Accept-Language", PStr (py "en-US,en;q=0.5"));
                 (py "Referer", PStr (py "https://www.google.com/")) ]);
      (py "extractor_args",
         PDict [ (py "youtube",
                    PDict [ (py "player_client",
                               PList [PStr (py "android"); PStr (py "web")]) ]) ]) ].

(** [extract_metadata(url)] *)
Definition extract_metadata (url : str) : M (option metadata) :=
  let* _ := log_to_console (py "Extracting metadata from: " ++ url) (py "info") in
  try_except
    (let* info := external (ydl_extract_info metadata_ydl_opts url) in
     match info with
     | Some d =>
         if info_truthy info then
           let md :=
             {| md_title := dict_get d (py "title") (PStr (py "Unknown"));
                md_duration := dict_get d (py "duration") (PInt 0);
                md_thumbnail := dict_get d (py "thumbnail") (PStr []);
                md_uploader := dict_get d (py "uploader") (PStr (py "Unknown"));
                md_view_count := dict_get d (py "view_count") (PInt 0);
                md_platform := Platform.get_platform_name url;
                md_url := url;
                md_formats := dict_get d (py "formats") (PList []) |} in
           let* _ := log_to_console
                       (py "Metadata extracted: " ++ str_of (md_title md))
                       (py "info") in
           ret (Some md)
         else ret None
     | None => ret None
     end)
    (fun e =>
       let* _ := log_to_console
                   (py "Error extracting metadata: " ++ exn_text e)
                   (py "error") in
       raise e).

(** [list(Path(temp_dir).glob('*'))]: the entries of the directory in
    enumeration order; nothing when the directory is not there. *)
Definition glob_star (dir : str) : M (list (str * node)) :=
  let* w := get_world in
  ret (listing w dir).

(** [str(p)] for the entry [p] called [name] that
    [Path(dir).glob('*')] yields.  [pathlib] keeps the root of [dir]
    (['/'], or ['//'] when [dir] starts with exactly two slashes), drops
    the empty and the ['.'] components of [dir], and joins what is left
    and [name] with ['/']. *)

(** [p.split('/')] *)
Fixpoint split_sep (p : str) : list str :=
  match p with
  | [] => [[]]
  | c :: rest =>
      if c =? 47 then [] :: split_sep rest
      else match split_sep rest with
           | first :: more => (c :: first) :: more
           | [] => [[c]]
           end
  end.

(** [len(p) - len(p.lstrip('/'))] *)
Fixpoint leading_slashes (p : str) : nat :=
  match p with
  | c :: rest => if c =? 47 then S (leading_slashes rest) else O
  | [] => O
  end.

Definition path_root (p : str) : str :=
  let slashes := leading_slashes p in
  if Nat.eqb slashes 0 then []
  else if Nat.eqb slashes 2 then py "//"
  else py "/".

Definition path_parts (p : str) : list str :=
  filter (fun part => part <> [] /\ part <> py ".") (split_sep p).

(** ['/'.join(parts)] *)
Fixpoint join_sep (parts : list str) : str :=
  match parts with
  | [] => []
  | [part] => part
  | part :: rest => part ++ py "/" ++ join_sep rest
  end.

Definition child_path (dir name : str) : str :=
  path_root dir ++ join_sep (path_parts dir ++ [name]).

(** The entry called [name] in a listing. *)
Fixpoint find_entry (name : str) (entries : list (str * node)) : option node :=
  match entries with
  | [] => None
  | (n, e) :: rest => if decide (n = name) then Some e else find_entry name rest
  end.

(** [str(e)] for the [OSError] that [open(file_path, 'rb')] raises: the
    error number and its message, then [repr] of the path. *)
Definition is_a_directory_text (file_path : str) : str :=
  py "[Errno 21] Is a directory: " ++ py_repr file_path.

Definition no_such_file_text (file_path : str) : str :=
  py "[Errno 2] No such file or directory: " ++ py_repr file_path.

(** [with open(p, 'rb') as f: f.read()] for the entry [p] called [name]
    that the enumeration of [dir] gave. *)
Definition read_file (dir name : str) : M bytes :=
  let* w := get_world in
  let file_path := child_path dir name in
  match fs w !! dir with
  | Some entries =>
      match find_entry name entries with
      | Some (File data) => ret data
      | Some (Dir _) => raise (Exception (is_a_directory_text file_path))
      | None => raise (Exception (no_such_file_text file_path))
      end
  | None => raise (Exception (no_such_file_text file_path))
  end.

(** [download_content(url, download_type, extension, quality)] *)
Definition download_content
    (url download_type extension quality : str) : M (str * bytes) :=
  let* _ := log_to_console
              (py "Starting download: type=" ++ download_type
               ++ py ", ext=" ++ extension ++ py ", quality=" ++ quality)
              (py "info") in
  with_temporary_directory (fun temp_dir =>
    let ydl_opts := build_ydl_options temp_dir download_type extension quality in
    try_except
      (let* _ := external (ydl_download ydl_opts url) in
       let* files := glob_star temp_dir in
       match files with
       | (name, _) :: _ =>
           let* _ := log_to_console (py "Download complete: " ++ name) (py "info") in
           let* file_bytes := read_file temp_dir name in
           ret (name, file_bytes)
       | [] => raise (Exception no_file_message)
       end)
      (fun e =>
         let* _ := log_to_console (py "Download error: " ++ exn_text e) (py "error") in
         raise e)).

(** The scratch directory of a call started in state [st]. *)
Definition scratch_dir (st : state) : str := mkdtemp (world st).

(** The fetch of a call started in [st], as the call performs it: on
    the world in which the scratch directory has just been created. *)
Definition fetch_of_call (url download_type extension quality : str)
    (st : state) : env outside * outcome unit :=
  ydl_download
    (build_ydl_options (scratch_dir st) download_type extension quality)
    url
    (set_fs (insert (scratch_dir st) []) (world st)).

End WithExternals.



End Orchestrator.

(* ===================================================================== *)
(** * The handlers of [main] *)
(* ===================================================================== *)

Module App.

Import Options World Orchestrator.
Local Open Scope effect_scope.

(** line 632: the link is not valid *)
Definition msg_invalid_url : str :=
  [226; 338; 32; 215; 8221; 215; 167; 215; 8482; 215; 169; 215; 8226;
   215; 168; 32; 215; 169; 215; 8221; 215; 8226; 215; 8211; 215; 376;
   32; 215; 215; 8482; 215; 160; 215; 8226; 32; 215; 170; 215; 167; 215;
   8482; 215; 376; 46; 32; 215; 215; 160; 215; 32; 215; 8221; 215; 8211;
   215; 8482; 215; 160; 215; 8226; 32; 215; 167; 215; 8482; 215; 169;
   215; 8226; 215; 168; 32; 215; 215; 339; 215; 46].

(** line 640: the link was analysed *)
Definition msg_analyzed : str :=
  [226; 339; 8230; 32; 215; 8221; 215; 167; 215; 8482; 215; 169; 215;
   8226; 215; 168; 32; 215; 160; 215; 8226; 215; 170; 215; 8212; 32;
   215; 8216; 215; 8221; 215; 166; 215; 339; 215; 8212; 215; 8221; 33].

(** line 642: the link cannot be analysed *)
Definition msg_cannot_analyze : str :=
  [226; 338; 32; 215; 339; 215; 32; 215; 160; 215; 8482; 215; 170; 215;
   376; 32; 215; 339; 215; 160; 215; 170; 215; 8212; 32; 215; 215; 170;
   32; 215; 8221; 215; 167; 215; 8482; 215; 169; 215; 8226; 215; 168;
   46; 32; 215; 160; 215; 161; 215; 8226; 32; 215; 167; 215; 8482; 215;
   169; 215; 8226; 215; 168; 32; 215; 215; 8212; 215; 168; 46].

(** line 646: the platform requires login *)
Definition msg_login_required : str :=
  [239; 191; 189; 32; 215; 164; 215; 339; 215; 732; 215; 164; 215; 8226;
   215; 168; 215; 215; 8221; 32; 215; 8211; 215; 8226; 32; 215; 8220;
   215; 8226; 215; 168; 215; 169; 215; 170; 32; 215; 8221; 215; 170;
   215; 8212; 215; 8216; 215; 168; 215; 8226; 215; 170; 46; 32; 215;
   160; 215; 161; 215; 8226; 32; 215; 164; 215; 339; 215; 732; 215; 164;
   215; 8226; 215; 168; 215; 215; 8221; 32; 215; 215; 8212; 215; 168;
   215; 170; 32; 40; 89; 111; 117; 84; 117; 98; 101; 44; 32; 84; 105;
   107; 84; 111; 107; 32; 215; 166; 215; 8482; 215; 8216; 215; 8226;
   215; 168; 215; 8482; 44; 32; 215; 8226; 215; 8250; 215; 8226; 39; 41;
   46].

(** line 648: Instagram requires login *)
Definition msg_instagram : str :=
  [287; 376; 8220; 184; 32; 215; 215; 8482; 215; 160; 215; 161; 215;
   732; 215; 8217; 215; 168; 215; 32; 215; 8220; 215; 8226; 215; 168;
   215; 169; 32; 215; 8221; 215; 170; 215; 8212; 215; 8216; 215; 168;
   215; 8226; 215; 170; 46; 32; 215; 160; 215; 161; 215; 8226; 32; 215;
   161; 215; 168; 215; 732; 215; 8226; 215; 376; 32; 215; 166; 215;
   8482; 215; 8216; 215; 8226; 215; 168; 215; 8482; 32; 215; 215; 164;
   215; 339; 215; 732; 215; 164; 215; 8226; 215; 168; 215; 215; 8221;
   32; 215; 215; 8212; 215; 168; 215; 170; 46].

(** line 650: access blocked for now *)
Definition msg_blocked : str :=
  [287; 376; 353; 171; 32; 215; 8221; 215; 8217; 215; 8482; 215; 169;
   215; 8221; 32; 215; 160; 215; 8212; 215; 161; 215; 215; 8221; 32;
   215; 8211; 215; 215; 160; 215; 8482; 215; 170; 46; 32; 215; 8221;
   215; 215; 170; 215; 8482; 215; 160; 215; 8226; 32; 215; 8220; 215;
   167; 215; 8221; 32; 215; 8226; 215; 160; 215; 161; 215; 8226; 32;
   215; 169; 215; 8226; 215; 8216; 46].

(** line 652: content unavailable or private *)
Definition msg_unavailable : str :=
  [226; 338; 32; 215; 8221; 215; 170; 215; 8226; 215; 8250; 215; 376;
   32; 215; 215; 8482; 215; 160; 215; 8226; 32; 215; 8211; 215; 215;
   8482; 215; 376; 32; 215; 215; 8226; 32; 215; 164; 215; 168; 215; 732;
   215; 8482; 46; 32; 215; 160; 215; 161; 215; 8226; 32; 215; 167; 215;
   8482; 215; 169; 215; 8226; 215; 168; 32; 215; 215; 8212; 215; 168;
   46].

(** line 654: what precedes the truncated raw error *)
Definition msg_error_prefix : str :=
  [226; 338; 32; 215; 169; 215; 8217; 215; 8482; 215; 215; 8221; 58; 32].

(** line 748: the file is ready *)
Definition msg_file_ready : str :=
  [226; 339; 8230; 32; 215; 8221; 215; 167; 215; 8226; 215; 8216; 215;
   165; 32; 215; 215; 8226; 215; 8250; 215; 376; 32; 215; 339; 215;
   8221; 215; 8226; 215; 168; 215; 8220; 215; 8221; 33].

(** line 752: access blocked *)
Definition msg_download_blocked : str :=
  [287; 376; 353; 171; 32; 215; 8221; 215; 8217; 215; 8482; 215; 169;
   215; 8221; 32; 215; 160; 215; 8212; 215; 161; 215; 215; 8221; 46; 32;
   215; 160; 215; 161; 215; 8226; 32; 215; 167; 215; 8482; 215; 169;
   215; 8226; 215; 168; 32; 215; 215; 8212; 215; 168; 32; 215; 215;
   8226; 32; 215; 164; 215; 339; 215; 732; 215; 164; 215; 8226; 215;
   168; 215; 215; 8221; 32; 215; 215; 8212; 215; 168; 215; 170; 46].

(** line 754: what precedes the raw download error *)
Definition msg_download_error_prefix : str :=
  [226; 338; 32; 215; 169; 215; 8217; 215; 8482; 215; 215; 8221; 32;
   215; 8216; 215; 8221; 215; 8226; 215; 168; 215; 8220; 215; 8221; 58;
   32].

(** lines 693, 699, 713, 739: the video choice of the type selector *)
Definition video_label : str :=
  [215; 8226; 215; 8482; 215; 8220; 215; 215; 8226].

(** What the widgets return in one run of the script.  The selectors and
    the download button exist only while metadata are displayed; their
    values are read in that case only. *)
Record inputs := Inputs {
  url_input : str;
  analyze_btn : bool;
  download_type : str;
  extension : str;
  quality : str;
  download_btn : bool
}.

Section WithExternals.

Context {U : Unicode} {E : Externals}.

Definition set_metadata (md : option metadata) : M unit :=
  let* s := get_session in
  put_session (Session md (ss_file_ready s) (ss_file_name s)).

Definition set_file_ready (data : option bytes) : M unit :=
  let* s := get_session in
  put_session (Session (ss_metadata s) data (ss_file_name s)).

Definition set_file_name (name : option str) : M unit :=
  let* s := get_session in
  put_session (Session (ss_metadata s) (ss_file_ready s) name).

(** The message chosen by the [if]/[elif] chain of lines 645-654 for
    [error_msg = str(e)]. *)
Definition analyze_error_text (error_msg : str) : str :=
  if str_in (py "login") (lower error_msg)
     || str_in (py "cookies") (lower error_msg) then
    msg_login_required
  else if str_in (py "instagram") (lower error_msg) then
    msg_instagram
  else if str_in (py "403") error_msg
          || str_in (py "blocked") (lower error_msg)
          || str_in (py "rate") (lower error_msg) then
    msg_blocked
  else if str_in (py "not available") (lower error_msg) then
    msg_unavailable
  else
    msg_error_prefix ++ slice_to 100 error_msg.

(** Lines 630-654: [if analyze_btn and url: ...] *)
Definition handle_analyze (inp : inputs) : M unit :=
  let url := url_input inp in
  if analyze_btn inp && truthy url then
    if negb (Validator.validate_url url) then
      show (ErrorBox msg_invalid_url)
    else
      try_except
        (let* metadata := extract_metadata url in
         match metadata with
         | Some md =>
             let* _ := set_metadata (Some md) in
             let* _ := set_file_ready None in
             show (SuccessBox msg_analyzed)
         | None => show (ErrorBox msg_cannot_analyze)
         end)
        (fun e => show (ErrorBox (analyze_error_text (exn_text e))))
  else ret tt.

(** The message chosen by lines 750-754. *)
Definition download_error_text (error_msg : str) : str :=
  if str_in (py "403") error_msg then msg_download_blocked
  else msg_download_error_prefix ++ error_msg.

(** Line 739: ['video' if download_type == ... else 'audio'] *)
Definition dl_type (inp : inputs) : str :=
  if decide (download_type inp = video_label) then py "video" else py "audio".

(** Lines 736-754: [if download_btn: ...], with [metadata] the value
    read from the session state at line 658. *)
Definition handle_download (md : metadata) (inp : inputs) : M unit :=
  if download_btn inp then
    try_except
      (let* result := download_content (md_url md) (dl_type inp)
                        (extension inp) (quality inp) in
       let (file_name, file_bytes) := result in
       let* _ := set_file_ready (Some file_bytes) in
       let* _ := set_file_name (Some file_name) in
       show (SuccessBox msg_file_ready))
      (fun e => show (ErrorBox (download_error_text (exn_text e))))
  else ret tt.

(** One run of [main]: the analysis handler, then, while metadata are
    held, the download handler.  The calls that only draw the page
    (titles, thumbnail, selectors, the final download button) read the
    session state without writing it and are left out. *)
Definition main (inp : inputs) : M unit :=
  let* _ := handle_analyze inp in
  let* s := get_session in
  match ss_metadata s with
  | Some md => handle_download md inp
  | None => ret tt
  end.

(** The state after a run. *)
Definition after (inp : inputs) (st : state) : state := fst (main inp st).

(** The analysis of a run started in [st] succeeds with [md]: the
    button is pressed, the URL is accepted and the extraction returns
    the record [md]. *)
Definition analysis_succeeds (inp : inputs) (st : state) (md : metadata) : Prop :=
  analyze_btn inp = true /\ truthy (url_input inp) = true /\
  Validator.validate_url (url_input inp) = true /\
  snd (extract_metadata (url_input inp) st) = Returns (Some md).

(** The download of a run started in [st] succeeds with a file: the
    analysis handler has returned, metadata are held, the button is
    pressed and [download_content] returns the file. *)
Definition download_succeeds (inp : inputs) (st : state)
    (name : str) (data : bytes) : Prop :=
  exists md,
    snd (handle_analyze inp st) = Returns tt /\
    ss_metadata (session (fst (handle_analyze inp st))) = Some md /\
    download_btn inp = true /\
    snd (download_content (md_url md) (dl_type inp) (extension inp)
           (quality inp) (fst (handle_analyze inp st)))
    = Returns (name, data).

(** The download of a run started in [st] fails with [e]: the run is
    one in which only the download button is pressed, and
    [download_content], called for the metadata [md] held in the
    session, raises [e] (the fetch raised, or no file was found). *)
Definition download_fails (inp : inputs) (st : state)
    (md : metadata) (e : exn) : Prop :=
  analyze_btn inp = false /\ download_btn inp = true /\
  ss_metadata (session st) = Some md /\
  snd (download_content (md_url md) (dl_type inp) (extension inp)
         (quality inp) st)
  = Raises e.

(** The analysis of a run started in [st] fails with the extraction
    error [e]: the button is pressed, the URL is accepted and
    [extract_metadata] raises [e], an [Exception]. *)
Definition extraction_fails (inp : inputs) (st : state) (e : exn) : Prop :=
  analyze_btn inp = true /\ truthy (url_input inp) = true /\
  Validator.validate_url (url_input inp) = true /\
  snd (extract_metadata (url_input inp) st) = Raises e /\
  exn_is_exception e = true.

End WithExternals.

(** Retention as the specification words it: once a file has been
    produced, a run of [main] in which no download is requested retains
    the file bytes and the file name. *)
Definition file_retained_unless_download : Prop :=
  forall (U : Unicode) (E : Externals) (inp : inputs) (st : state)
         (data : bytes) (name : str),
    ss_file_ready (session st) = Some data ->
    ss_file_name (session st) = Some name ->
    download_btn inp = false ->
    ss_file_ready (session (after inp st)) = Some data /\
    ss_file_name (session (after inp st)) = Some name.

End App.

(* ===================================================================== *)
(** * Concrete collaborators, to run the model *)
(* ===================================================================== *)

Module Demo.

Import Options World Orchestrator App.

Definition tmp : str := py "/tmp/tmpab12".

(** A library whose fetch leaves [left] in the scratch directory and
    ends as [fetched], and whose inspection ends as [inspected]. *)
Definition externals
    (left : list (str * node)) (fetched : outcome unit)
    (inspected : outcome (option (gmap str pyval))) : Externals :=
  {| outside := unit;
     ydl_extract_info := fun _ _ w => (w, inspected);
     ydl_download := fun _ _ w => (set_fs (insert tmp left) w, fetched);
     mkdtemp := fun _ => tmp;
     now_hms := fun _ => py "12:00:00";
     str_of_other := fun _ => py "?" |}.

Definition empty_world : env unit := Env ∅ tt.

Definition start {E : Externals} (w : env outside) (s : session_state) : state :=
  State w s [] [].

Definition no_session : session_state := Session None None None.

Definition clip : bytes := [Byte.x00; Byte.x01; Byte.x02].

Definition video_url : str := py "https://www.youtube.com/watch?v=abc123".

(** What the library returns for an inspected video. *)
Definition some_info : gmap str pyval :=
  {[ py "title" := PStr (py "A clip") ]}.

Definition press_analyze : inputs :=
  Inputs video_url true [] [] [] false.

Definition press_download : inputs :=
  Inputs video_url false video_label (py "mp4") best_label true.

Definition login_error : exn :=
  Exception (py "ERROR: [Instagram] login required to view this post").

Definition forbidden : exn := Exception (py "ERROR: HTTP Error 403: Forbidden").

(** [KeyboardInterrupt]: not an [Exception]. *)
Definition interrupt : exn := Exn false [].

Definition some_metadata : metadata :=
  Metadata (PStr (py "A clip")) (PInt 0) (PStr []) (PStr (py "Unknown"))
           (PInt 0) (py "YouTube") video_url (PList []).

(** A session in which a link has been analysed and a file produced. *)
Definition with_file : session_state :=
  Session (Some some_metadata) (Some clip) (Some (py "clip.mp4")).

End Demo.

From Stdlib Require DecimalN.

(* ===================================================================== *)
(** * Display helpers: [format_duration], [get_platform_emoji] *)
(* ===================================================================== *)

Module Display.

Local Open Scope Z_scope.

(** Line 383: the text shown for a missing duration. *)
Definition unknown_label : str :=
  [215; 339; 215; 32; 215; 8482; 215; 8220; 215; 8226; 215; 162]%N.

(** The decimal digits of a number, most significant first. *)
Fixpoint uint_codes (u : Decimal.uint) : str :=
  match u with
  | Decimal.Nil => []
  | Decimal.D0 u' => 48%N :: uint_codes u'
  | Decimal.D1 u' => 49%N :: uint_codes u'
  | Decimal.D2 u' => 50%N :: uint_codes u'
  | Decimal.D3 u' => 51%N :: uint_codes u'
  | Decimal.D4 u' => 52%N :: uint_codes u'
  | Decimal.D5 u' => 53%N :: uint_codes u'
  | Decimal.D6 u' => 54%N :: uint_codes u'
  | Decimal.D7 u' => 55%N :: uint_codes u'
  | Decimal.D8 u' => 56%N :: uint_codes u'
  | Decimal.D9 u' => 57%N :: uint_codes u'
  end.

(** [str(n)] for [n >= 0] *)
Definition decimal (n : N) : str := uint_codes (N.to_uint n).

(** Zero padding on the left up to [width] code points. *)
Definition zfill (width : nat) (digits : str) : str :=
  replicate (width - length digits) 48%N ++ digits.

(** [f"{z:02d}"]: the sign counts in the width. *)
Definition format_02d (z : Z) : str :=
  if z <? 0 then 45%N :: zfill 1 (decimal (Z.to_N (- z)))
  else zfill 2 (decimal (Z.to_N z)).

(** [format_duration(seconds)] for [seconds] that is [None] or an [int];
    [int(seconds)] is then [seconds] itself.  (A [float] is not a value of
    this model.) *)
Definition format_duration (seconds : option Z) : str :=
  match seconds with
  | None => unknown_label
  | Some z =>
      if z =? 0 then unknown_label
      else
        let hours := z / 3600 in
        let minutes := (z mod 3600) / 60 in
        let secs := z mod 60 in
        if 0 <? hours then
          format_02d hours ++ py ":" ++ format_02d minutes ++ py ":"
          ++ format_02d secs
        else format_02d minutes ++ py ":" ++ format_02d secs
  end.

(** The [emojis] dictionary of [get_platform_emoji] (the source's
    non-ASCII literals, code point by code point). *)
Definition emojis : gmap str str :=
  list_to_map
    [ (py "YouTube", [287; 376; 172]%N);
      (py "TikTok", [287; 376; 181]%N);
      (py "Instagram", [287; 376; 8220; 184]%N);
      (py "Facebook", [287; 376; 8216; 165]%N);
      (py "X (Twitter)", [287; 376; 166]%N);
      (py "Vimeo", [287; 376; 165]%N);
      (py "Dailymotion", [287; 376; 8220; 186]%N);
      (py "Twitch", [287; 376; 174]%N);
      (py "Reddit", [287; 376; 164; 8211]%N);
      (py "SoundCloud", [287; 376; 8221; 352]%N);
      (py "Spotify", [287; 376; 167]%N) ].

(** Line 434: the glyph of a platform without an entry. *)
Definition default_emoji : str := [287; 376; 338]%N.

(** [get_platform_emoji(platform)] *)
Definition get_platform_emoji (platform : str) : str :=
  Options.dict_get emojis platform default_emoji.

(** A decimal digit. *)
Definition is_digit_code (c : N) : Prop := (48 <= c <= 57)%N.

(** Reading a duration text back: fields separated by colons, the last
    two being minutes and seconds, a third before them hours. *)
Fixpoint split_on (sep : N) (s : str) : list str :=
  match s with
  | [] => [[]]
  | c :: rest =>
      if (c =? sep)%N then [] :: split_on sep rest
      else match split_on sep rest with
           | field :: fields => (c :: field) :: fields
           | [] => [[c]]
           end
  end.

Fixpoint codes_uint (s : str) : option Decimal.uint :=
  match s with
  | [] => Some Decimal.Nil
  | c :: rest =>
      match codes_uint rest with
      | None => None
      | Some u =>
          if (c =? 48)%N then Some (Decimal.D0 u)
          else if (c =? 49)%N then Some (Decimal.D1 u)
          else if (c =? 50)%N then Some (Decimal.D2 u)
          else if (c =? 51)%N then Some (Decimal.D3 u)
          else if (c =? 52)%N then Some (Decimal.D4 u)
          else if (c =? 53)%N then Some (Decimal.D5 u)
          else if (c =? 54)%N then Some (Decimal.D6 u)
          else if (c =? 55)%N then Some (Decimal.D7 u)
          else if (c =? 56)%N then Some (Decimal.D8 u)
          else if (c =? 57)%N then Some (Decimal.D9 u)
          else None
      end
  end.

Definition parse_decimal (s : str) : option Z :=
  match s with
  | [] => None
  | _ => (fun u => Z.of_N (N.of_uint u)) <$> codes_uint s
  end.

Definition parse_duration (text : str) : option Z :=
  match split_on 58 text with
  | [m; s] =>
      match parse_decimal m, parse_decimal s with
      | Some m', Some s' => Some (60 * m' + s')
      | _, _ => None
      end
  | [h; m; s] =>
      match parse_decimal h, parse_decimal m, parse_decimal s with
      | Some h', Some m', Some s' => Some (3600 * h' + 60 * m' + s')
      | _, _, _ => None
      end
  | _ => None
  end.

End Display.

(* ===================================================================== *)
(** * Serving the file: MIME type and download button (lines 757-777) *)
(* ===================================================================== *)

Module Delivery.

Import Options World.

(** [PurePosixPath(s).name]: the last component of the path, components
    being separated by [/] and the empty and [.] components dropped. *)
Definition is_component (c : str) : bool :=
  match c with
  | [] => false
  | [x] => negb (x =? 46)
  | _ => true
  end.

Definition path_name (s : str) : str :=
  default [] (last (List.filter is_component (Display.split_on 47 s))).

(** [name.rfind(c)], when [c] occurs. *)
Fixpoint rfind (c : N) (s : str) : option nat :=
  match s with
  | [] => None
  | x :: rest =>
      match rfind c rest with
      | Some i => Some (S i)
      | None => if x =? c then Some 0%nat else None
      end
  end.

(** [PurePosixPath(s).suffix]: from the last dot of the name on, unless
    that dot is the first or the last code point of the name. *)
Definition suffix (s : str) : str :=
  let name := path_name s in
  match rfind 46 name with
  | Some i =>
      if ((0 <? i) && (i <? length name - 1))%nat then drop i name else []
  | None => []
  end.

Definition mime_types : gmap str str :=
  list_to_map
    [ (py ".mp4", py "video/mp4");
      (py ".mkv", py "video/x-matroska");
      (py ".webm", py "video/webm");
      (py ".mp3", py "audio/mpeg");
      (py ".m4a", py "audio/mp4");
      (py ".wav", py "audio/wav") ].

Definition default_mime : str := py "application/octet-stream".

(** Line 773: the label of the download button. *)
Definition download_label : str :=
  [287; 376; 8220; 165; 32; 215; 8221; 215; 8226; 215; 168; 215; 8220; 32;
   215; 162; 215; 8250; 215; 169; 215; 8482; 215; 8226].

(** The arguments of [st.download_button]. *)
Record download_offer := Offer {
  offer_label : str;
  offer_data : bytes;
  offer_file_name : str;
  offer_mime : str
}.

(** [bool(b)] for what the session holds as file bytes. *)
Definition bytes_truthy (b : option bytes) : bool :=
  match b with
  | Some (_ :: _) => true
  | _ => false
  end.

Section WithUnicode.

Context {U : Unicode}.

(** Lines 761-770: the MIME type for a file name. *)
Definition mime_type_of (file_name : str) : str :=
  dict_get mime_types (lower (suffix file_name)) default_mime.

(** Lines 757-777, inside the block guarded by line 657: what is offered
    for download, given the session state.  [Path(None)] raises a
    [TypeError]. *)
Definition offered_download (s : session_state) : outcome (option download_offer) :=
  match ss_metadata s with
  | None => Returns None
  | Some _ =>
      if bytes_truthy (ss_file_ready s) then
        match ss_file_name s with
        | Some name =>
            Returns (Some (Offer download_label (default [] (ss_file_ready s))
                             name (mime_type_of name)))
        | None =>
            Raises (Exception
                      (py "expected str, bytes or os.PathLike object, not NoneType"))
        end
      else Returns None
  end.

End WithUnicode.

(** The keys of [mime_types]. *)
Definition known_suffixes : list str :=
  [py ".mp4"; py ".mkv"; py ".webm"; py ".mp3"; py ".m4a"; py ".wav"].

(** What the application keeps true of its session state: file bytes
    come with a file name, and a file name with metadata. *)
Definition session_consistent (s : session_state) : Prop :=
  (is_Some (ss_file_ready s) -> is_Some (ss_file_name s)) /\
  (is_Some (ss_file_name s) -> is_Some (ss_metadata s)).

End Delivery.

(* ===================================================================== *)
(** * Properties of the character classes of a pattern *)
(* ===================================================================== *)

Module RegexClasses.

Import Regex.

(** Every class of the pattern gives the same answer on [c] and on
    [f c]. *)
Fixpoint classes_respect (f : N -> N) (r : regex) : Prop :=
  match r with
  | Empty | Eps => True
  | Cls p => forall c, p (f c) = p c
  | Seq a b | Alt a b => classes_respect f a /\ classes_respect f b
  | Star a => classes_respect f a
  end.

(** Every class of the pattern matches only code points that satisfy
    [P]. *)
Fixpoint classes_within (P : N -> Prop) (r : regex) : Prop :=
  match r with
  | Empty | Eps => True
  | Cls p => forall c, p c = true -> P c
  | Seq a b | Alt a b => classes_within P a /\ classes_within P b
  | Star a => classes_within P a
  end.

(** The capital letters of ASCII. *)
Definition capitals : list N := N.of_nat <$> seq 65 26.

(** The code points for which [is_space] holds. *)
Definition white_space : list N :=
  [9; 10; 11; 12; 13; 28; 29; 30; 31; 32; 133; 160; 5760;
   8192; 8193; 8194; 8195; 8196; 8197; 8198; 8199; 8200; 8201; 8202;
   8232; 8233; 8239; 8287; 12288].

(** White space only. *)
Definition blank (s : str) : Prop := Forall (fun c => is_space c = true) s.

(** No white space at all. *)
Definition space_free (s : str) : Prop := Forall (fun c => is_space c = false) s.

End RegexClasses.

(* ===================================================================== *)
(** * Parts of the option dictionary *)
(* ===================================================================== *)

Module OptionParts.

Import Options.

(** The file name template of line 492. *)
Definition output_template : str := py "%(title)s.%(ext)s".

(** The keys whose values do not depend on the request. *)
Definition common_keys : list str :=
  [py "outtmpl"; py "quiet"; py "no_warnings"; py "postprocessor_args";
   py "http_headers"].

(** The conversion step attached for mp4. *)
Definition video_convertor : pyval :=
  PList [PDict [ (py "key", PStr (py "FFmpegVideoConvertor"));
                 (py "preferedformat", PStr (py "mp4")) ]].

(** The entries of a nested dictionary stored under [key]. *)
Definition nested_entries (opts : gmap str pyval) (key : str) : list (str * pyval) :=
  match opts !! key with
  | Some (PDict entries) => entries
  | _ => []
  end.

End OptionParts.

(* ===================================================================== *)
(** * Facts about the string operations *)
(* ===================================================================== *)

Lemma starts_with_spec (p s : str) :
  starts_with p s = true <-> exists rest, s = p ++ rest.
Proof.
  revert s. induction p as [|a p IH]; intros s; simpl.
  - split; [eauto | done].
  - destruct s as [|b s].
    + split; [done | intros [rest H]; discriminate].
    + rewrite andb_true_iff, N.eqb_eq, IH. split.
      * intros [-> [rest ->]]. by exists rest.
      * intros [rest H]. injection H as -> ->. eauto.
Qed.

Lemma str_in_spec (needle hay : str) :
  str_in needle hay = true <-> occurs needle hay.
Proof.
  unfold occurs. induction hay as [|c hay IH]; simpl.
  - rewrite orb_false_r, starts_with_spec. split.
    + intros [rest H]. exists [], rest. done.
    + intros [before [after H]].
      destruct before; [|discriminate]. simpl in H. eauto.
  - rewrite orb_true_iff, starts_with_spec, IH. split.
    + intros [[rest H] | [before [after H]]].
      * exists [], rest. done.
      * exists (c :: before), after. by rewrite H.
    + intros [before [after H]]. destruct before as [|b before].
      * left. exists after. done.
      * right. injection H as -> ->. eauto.
Qed.

Lemma str_in_false (needle hay : str) :
  str_in needle hay = false <-> ~ occurs needle hay.
Proof.
  rewrite <- str_in_spec. destruct (str_in needle hay); split; congruence.
Qed.

Section LowerFacts.

Context {U : Unicode}.

(** Lowering keeps a block of stable code points where it is. *)
Lemma lower_from_stable_block (before a s b : str) :
  lower_stable s ->
  exists a' b', lower_from before (a ++ s ++ b) = a' ++ s ++ b'.
Proof.
  intros Hs. revert before. induction a as [|c a IH]; intros before.
  - simpl. exists []. simpl. revert before.
    induction Hs as [|c s [Hasc Hlow] Hs IH]; intros before.
    + simpl. eauto.
    + simpl. unfold lower_cp at 1. rewrite Hasc, Hlow. simpl.
      destruct (IH (before ++ [c])) as [b' ->]. eauto.
  - simpl. destruct (IH (before ++ [c])) as [a' [b' ->]].
    exists (lower_cp before c (a ++ s ++ b) ++ a'), b'.
    by rewrite <- app_assoc.
Qed.

Lemma lower_keeps_stable (needle hay : str) :
  lower_stable needle ->
  occurs needle hay -> occurs needle (lower hay).
Proof.
  intros Hs [a [b ->]]. unfold lower.
  destruct (lower_from_stable_block [] a needle b Hs) as [a' [b' ->]].
  by exists a', b'.
Qed.

End LowerFacts.

(* ===================================================================== *)
(** * The platform identifier *)
(* ===================================================================== *)

Section PlatformFacts.

Import Platform.
Context {U : Unicode}.

(** The loop returns the name of the first entry whose domain occurs in
    the lowered URL, for any table. *)
Lemma platform_loop_some items url name :
  platform_loop items url = Some name ->
  exists i domain,
    items !! i = Some (domain, name) /\
    occurs domain (lower url) /\
    forall j d n, (j < i)%nat -> items !! j = Some (d, n) ->
                  ~ occurs d (lower url).
Proof.
  induction items as [|[d0 n0] items IH]; simpl; [done|].
  destruct (str_in d0 (lower url)) eqn:E.
  - intros [= <-]. exists 0%nat, d0. split; [done|].
    split; [by apply str_in_spec | intros; lia].
  - intros H. destruct (IH H) as (i & domain & Hi & Hocc & Hfirst).
    exists (S i), domain. split; [done|]. split; [done|].
    intros [|j] d n Hlt Hj; simpl in Hj.
    + injection Hj as <- <-. by apply str_in_false.
    + apply (Hfirst j d n); [lia | done].
Qed.

Lemma platform_loop_none items url :
  platform_loop items url = None ->
  forall d n, (d, n) ∈ items -> ~ occurs d (lower url).
Proof.
  induction items as [|[d0 n0] items IH]; simpl; intros H d n Hin.
  - by apply elem_of_nil in Hin.
  - destruct (str_in d0 (lower url)) eqn:E; [done|].
    apply elem_of_cons in Hin as [[= -> ->] | Hin].
    + by apply str_in_false.
    + by apply (IH H d n).
Qed.

(** C8. [get_platform_name] is total and yields exactly one label for
    every string: the name of the first entry of the table, in the
    table's order, whose domain occurs in the lower-cased URL, and the
    generic label when no entry's domain occurs in it. *)
Theorem get_platform_name_first_match (url : str) :
  (exists i domain name,
      platforms !! i = Some (domain, name) /\
      occurs domain (lower url) /\
      (forall j d n, (j < i)%nat -> platforms !! j = Some (d, n) ->
                     ~ occurs d (lower url)) /\
      get_platform_name url = name)
  \/
  ((forall d n, (d, n) ∈ platforms -> ~ occurs d (lower url)) /\
   get_platform_name url = other_label).
Proof.
  unfold get_platform_name.
  destruct (platform_loop platforms url) as [name|] eqn:E.
  - left. destruct (platform_loop_some _ _ _ E) as (i & domain & H1 & H2 & H3).
    exists i, domain, name. done.
  - right. split; [|done]. by apply platform_loop_none.
Qed.

End PlatformFacts.

Example platform_youtube :
  @Platform.get_platform_name plain_unicode
    (py "https://www.YouTube.com/watch?v=abc123") = py "YouTube".
Proof. reflexivity. Qed.

(** Table order decides: [x.com] comes before [vimeo.com]. *)
Example platform_precedence :
  @Platform.get_platform_name plain_unicode
    (py "https://vimeo.com/channels/x.com") = py "X (Twitter)".
Proof. reflexivity. Qed.

Example platform_other :
  @Platform.get_platform_name plain_unicode (py "https://example.org/v")
  = Platform.other_label.
Proof. reflexivity. Qed.

(* ===================================================================== *)
(** * The option builder *)
(* ===================================================================== *)

Section OptionFacts.

Import Options.

(** Distinct literal keys are told apart by evaluation. *)
Ltac key_ne := let H := fresh in intros H; vm_compute in H; discriminate H.

Ltac lookup_opts :=
  repeat first
    [ rewrite lookup_insert_eq
    | rewrite lookup_insert_ne by key_ne
    | rewrite lookup_empty ].

Lemma video_quality_default (quality : str) :
  quality ≠ py "4K (2160p)" -> quality ≠ py "1080p" -> quality ≠ py "720p" ->
  dict_get video_quality_map quality (py "bestvideo+bestaudio/best")
  = py "bestvideo+bestaudio/best".
Proof.
  intros H1 H2 H3. unfold dict_get, video_quality_map. simpl list_to_map.
  destruct (decide (quality = best_label)) as [->|Hb].
  - by rewrite lookup_insert_eq.
  - rewrite !lookup_insert_ne by done. by rewrite lookup_empty.
Qed.

Lemma video_format (temp_dir extension quality : str) :
  build_ydl_options temp_dir (py "video") extension quality !! py "format"
  = Some (PStr (dict_get video_quality_map quality (py "bestvideo+bestaudio/best"))).
Proof.
  unfold build_ydl_options.
  rewrite decide_True by done. simpl list_to_map.
  repeat case_decide; lookup_opts; reflexivity.
Qed.

(** C1. For a video request the format selector comes from the tier
    table: the tiers capped at 2160, 1080 and 720 ask for the best video
    and best audio under the cap, and every other tier label (the label
    "best" among them) gives exactly ['bestvideo+bestaudio/best'];
    the function is total.  For type video, extension mp4 and quality
    "best" the selector is ['bestvideo+bestaudio/best'], the merge
    container is mp4 and the conversion step targets mp4. *)
Theorem build_ydl_options_video (temp_dir extension quality : str) :
  let format_of q :=
    build_ydl_options temp_dir (py "video") extension q !! py "format" in
  format_of (py "4K (2160p)") = Some (PStr (height_capped_selector (py "2160"))) /\
  format_of (py "1080p") = Some (PStr (height_capped_selector (py "1080"))) /\
  format_of (py "720p") = Some (PStr (height_capped_selector (py "720"))) /\
  (quality ∉ [py "4K (2160p)"; py "1080p"; py "720p"] ->
   format_of quality = Some (PStr (py "bestvideo+bestaudio/best"))) /\
  let scenario := build_ydl_options temp_dir (py "video") (py "mp4") (py "best") in
  scenario !! py "format" = Some (PStr (py "bestvideo+bestaudio/best")) /\
  scenario !! py "merge_output_format" = Some (PStr (py "mp4")) /\
  scenario !! py "postprocessors" =
    Some (PList [PDict [ (py "key", PStr (py "FFmpegVideoConvertor"));
                         (py "preferedformat", PStr (py "mp4")) ]]).
Proof.
  cbv zeta. rewrite !video_format.
  split; [reflexivity|]. split; [reflexivity|]. split; [reflexivity|].
  split.
  - intros Hq. rewrite video_quality_default; [done| | |];
      intros ->; apply Hq; set_solver.
  - split; [reflexivity|].
    unfold build_ydl_options. rewrite !decide_True by done.
    simpl list_to_map. split; lookup_opts; reflexivity.
Qed.

Lemma build_ydl_options_video_witness :
  (py "best" ∉ [py "4K (2160p)"; py "1080p"; py "720p"]) /\
  build_ydl_options (py "/tmp/tmpab12") (py "video") (py "mp4") (py "best")
    !! py "format" = Some (PStr (py "bestvideo+bestaudio/best")).
Proof.
  assert (Hq : py "best" ∉ [py "4K (2160p)"; py "1080p"; py "720p"]).
  { rewrite !elem_of_cons, elem_of_nil.
    intros [H|[H|[H|[]]]]; vm_compute in H; discriminate H. }
  split; [exact Hq|].
  destruct (build_ydl_options_video (py "/tmp/tmpab12") (py "mp4") (py "best"))
    as (_ & _ & _ & H & _).
  exact (H Hq).
Defined.

Lemma audio_codec_cases (extension : str) :
  let codec := dict_get audio_format_map extension (py "mp3") in
  (extension ∈ [py "mp3"; py "m4a"; py "wav"] -> codec = extension) /\
  (extension ∉ [py "mp3"; py "m4a"; py "wav"] -> codec = py "mp3").
Proof.
  cbv zeta. unfold dict_get, audio_format_map. simpl list_to_map.
  rewrite !elem_of_cons, elem_of_nil. split.
  - intros [->|[->|[->|[]]]]; reflexivity.
  - intros H. rewrite !lookup_insert_ne by (intros <-; tauto).
    by rewrite lookup_empty.
Qed.

Lemma audio_quality_cases (quality : str) :
  let q := dict_get audio_quality_map quality (py "0") in
  (quality = best_label -> q = py "0") /\
  (quality = py "192kbps" -> q = py "192") /\
  (quality = py "128kbps" -> q = py "128") /\
  (quality ∉ [best_label; py "192kbps"; py "128kbps"] -> q = py "0").
Proof.
  cbv zeta. unfold dict_get, audio_quality_map. simpl list_to_map.
  rewrite !elem_of_cons, elem_of_nil.
  repeat split; try (intros ->; reflexivity).
  intros H. rewrite !lookup_insert_ne by (intros <-; tauto).
  by rewrite lookup_empty.
Qed.

(** C5. For an audio request (any type other than video) the format
    selector is ['bestaudio/best'] whatever the extension and quality,
    and one audio-extraction step is attached: its codec is the
    extension for mp3, m4a and wav and mp3 otherwise; its quality is '0'
    for the best tier, '192' and '128' for the kbps tiers and '0' for
    any other tier.  The function is total. *)
Theorem build_ydl_options_audio (temp_dir download_type extension quality : str) :
  download_type ≠ py "video" ->
  exists codec q,
    let opts := build_ydl_options temp_dir download_type extension quality in
    opts !! py "format" = Some (PStr (py "bestaudio/best")) /\
    opts !! py "postprocessors" =
      Some (PList [PDict [ (py "key", PStr (py "FFmpegExtractAudio"));
                           (py "preferredcodec", PStr codec);
                           (py "preferredquality", PStr q) ]]) /\
    (extension ∈ [py "mp3"; py "m4a"; py "wav"] -> codec = extension) /\
    (extension ∉ [py "mp3"; py "m4a"; py "wav"] -> codec = py "mp3") /\
    (quality = best_label -> q = py "0") /\
    (quality = py "192kbps" -> q = py "192") /\
    (quality = py "128kbps" -> q = py "128") /\
    (quality ∉ [best_label; py "192kbps"; py "128kbps"] -> q = py "0").
Proof.
  intros Haudio.
  exists (dict_get audio_format_map extension (py "mp3")),
         (dict_get audio_quality_map quality (py "0")).
  cbv zeta. unfold build_ydl_options. rewrite !decide_False by done.
  simpl list_to_map.
  split; [lookup_opts; reflexivity|].
  split; [lookup_opts; reflexivity|].
  destruct (audio_codec_cases extension) as [Hc1 Hc2].
  destruct (audio_quality_cases quality) as (Hq1 & Hq2 & Hq3 & Hq4).
  done.
Qed.

Lemma build_ydl_options_audio_witness :
  py "audio" ≠ py "video" /\
  exists codec q,
    build_ydl_options (py "/tmp/tmpab12") (py "audio") (py "wav") (py "192kbps")
      !! py "postprocessors" =
      Some (PList [PDict [ (py "key", PStr (py "FFmpegExtractAudio"));
                           (py "preferredcodec", PStr codec);
                           (py "preferredquality", PStr q) ]]) /\
    codec = py "wav" /\ q = py "192".
Proof.
  assert (Ha : py "audio" ≠ py "video").
  { intros H. vm_compute in H. discriminate H. }
  split; [exact Ha|].
  destruct (build_ydl_options_audio (py "/tmp/tmpab12") (py "audio") (py "wav")
              (py "192kbps") Ha)
    as (codec & q & _ & Hpp & Hc & _ & _ & Hq & _).
  exists codec, q. split; [exact Hpp|]. split.
  - apply Hc. rewrite !elem_of_cons. right. right. left. reflexivity.
  - apply Hq. reflexivity.
Defined.

Example audio_unknown_extension_and_tier :
  build_ydl_options (py "/tmp/t") (py "audio") (py "flac") (py "320kbps")
    !! py "postprocessors" =
    Some (PList [PDict [ (py "key", PStr (py "FFmpegExtractAudio"));
                         (py "preferredcodec", PStr (py "mp3"));
                         (py "preferredquality", PStr (py "0")) ]]).
Proof. vm_compute. reflexivity. Qed.

End OptionFacts.

(* ===================================================================== *)
(** * The derivative matcher decides the language of a pattern *)
(* ===================================================================== *)

Section RegexFacts.

Import Regex.

Lemma lang_empty_inv s : ~ lang Empty s.
Proof. intros H. inversion H. Qed.

Lemma lang_eps_inv s : lang Eps s -> s = [].
Proof. intros H. by inversion H. Qed.

Lemma lang_cls_inv p s : lang (Cls p) s -> exists c, s = [c] /\ p c = true.
Proof. intros H. inversion H; subst. eauto. Qed.

Lemma lang_seq_inv a b s :
  lang (Seq a b) s -> exists s1 s2, s = s1 ++ s2 /\ lang a s1 /\ lang b s2.
Proof. intros H. inversion H; subst. eauto. Qed.

Lemma lang_alt_inv a b s : lang (Alt a b) s -> lang a s \/ lang b s.
Proof. intros H. inversion H; subst; eauto. Qed.

Lemma nullable_spec r : nullable r = true <-> lang r [].
Proof.
  induction r as [| |p|a IHa b IHb|a IHa b IHb|a IHa]; simpl.
  - split; [done | intros H; inversion H].
  - split; [constructor | done].
  - split; [done | intros H; inversion H].
  - rewrite andb_true_iff, IHa, IHb. split.
    + intros [Ha Hb]. by apply (lang_seq a b [] []).
    + intros (s1 & s2 & Hs & Ha & Hb)%lang_seq_inv.
      symmetry in Hs. apply app_eq_nil in Hs as [-> ->]. done.
  - rewrite orb_true_iff, IHa, IHb. split.
    + intros [Ha | Hb]; [by apply lang_alt_l | by apply lang_alt_r].
    + apply lang_alt_inv.
  - split; [constructor | done].
Qed.

Lemma lang_seq' a b s : lang (seq' a b) s <-> lang (Seq a b) s.
Proof.
  assert (Hempty_r : forall x, lang (Seq x Empty) s <-> lang Empty s).
  { intros x. split; [|intros H; inversion H].
    intros (s1 & s2 & _ & _ & Hb)%lang_seq_inv. inversion Hb. }
  destruct a; simpl;
    try (destruct b; simpl; rewrite ?Hempty_r; reflexivity).
  - split; [intros H; inversion H|].
    intros (s1 & s2 & _ & Ha & _)%lang_seq_inv. inversion Ha.
  - split.
    + intros H. by apply (lang_seq Eps b [] s); [constructor|].
    + intros (s1 & s2 & -> & Ha%lang_eps_inv & Hb)%lang_seq_inv.
      by subst.
Qed.

Lemma lang_alt' a b s : lang (alt' a b) s <-> lang (Alt a b) s.
Proof.
  assert (Hempty_r : forall x, lang (Alt x Empty) s <-> lang x s).
  { intros x. split; [|by apply lang_alt_l].
    intros [H | H]%lang_alt_inv; [done | inversion H]. }
  destruct a; simpl;
    try (destruct b; simpl; rewrite ?Hempty_r; reflexivity).
  split; [by apply lang_alt_r|].
  intros [H | H]%lang_alt_inv; [inversion H | done].
Qed.

(** A non-empty member of [a*] starts with a non-empty member of [a]. *)
Lemma lang_star_cons_inv a c s :
  lang (Star a) (c :: s) ->
  exists s1 s2, s = s1 ++ s2 /\ lang a (c :: s1) /\ lang (Star a) s2.
Proof.
  intros H. remember (Star a) as r eqn:Er. remember (c :: s) as w eqn:Ew.
  revert s Ew.
  induction H as [| | | | | |a' s1 s2 H1 _ H2 IH2]; try discriminate.
  injection Er as ->. intros s Ew.
  destruct s1 as [|c' s1]; simpl in Ew.
  - by apply IH2.
  - injection Ew as -> <-. eauto.
Qed.

Lemma deriv_spec r c s : lang (deriv c r) s <-> lang r (c :: s).
Proof.
  revert s. induction r as [| |p|a IHa b IHb|a IHa b IHb|a IHa]; intros s; simpl.
  - split; intros H; inversion H.
  - split; intros H; inversion H.
  - destruct (p c) eqn:Ep; split.
    + intros ->%lang_eps_inv. by constructor.
    + intros (c' & [= -> ->] & _)%lang_cls_inv. constructor.
    + intros H; inversion H.
    + intros (c' & [= -> ->] & Hp)%lang_cls_inv. congruence.
  - rewrite lang_alt'. split.
    + intros [H | H]%lang_alt_inv.
      * apply lang_seq' in H.
        apply lang_seq_inv in H as (s1 & s2 & -> & Ha & Hb).
        apply IHa in Ha. by apply (lang_seq a b (c :: s1) s2).
      * destruct (nullable a) eqn:En; [|inversion H].
        apply nullable_spec in En. apply IHb in H.
        by apply (lang_seq a b [] (c :: s)).
    + intros (s1 & s2 & Hs & Ha & Hb)%lang_seq_inv.
      destruct s1 as [|c' s1]; simpl in Hs.
      * subst s2. apply lang_alt_r.
        apply nullable_spec in Ha. rewrite Ha. by apply IHb.
      * injection Hs as <- ->. apply lang_alt_l, lang_seq'.
        apply lang_seq; [by apply IHa | done].
  - rewrite lang_alt'. split.
    + intros [H | H]%lang_alt_inv;
        [apply lang_alt_l, IHa | apply lang_alt_r, IHb]; done.
    + intros [H | H]%lang_alt_inv;
        [apply lang_alt_l, IHa | apply lang_alt_r, IHb]; done.
  - rewrite lang_seq'. split.
    + intros (s1 & s2 & -> & Ha & Hb)%lang_seq_inv.
      apply IHa in Ha. by apply (lang_star_app a (c :: s1) s2).
    + intros (s1 & s2 & -> & Ha & Hb)%lang_star_cons_inv.
      apply lang_seq; [by apply IHa | done].
Qed.

(** The matcher accepts exactly the language of the pattern; in
    particular it a rejection is never a failure of the search. *)
Theorem matches_spec r s : matches r s = true <-> lang r s.
Proof.
  revert r. induction s as [|c s IH]; intros r; simpl.
  - apply nullable_spec.
  - rewrite IH. apply deriv_spec.
Qed.

Lemma lang_opt_inv r s : lang (Opt r) s -> lang r s \/ s = [].
Proof.
  intros [H | H]%lang_alt_inv; [by left | right; by apply lang_eps_inv].
Qed.

(** A run of single-character classes consumes one code point per
    class. *)
Lemma lang_word_inv cls w tail s :
  lang (word cls w tail) s ->
  exists w' rest,
    s = w' ++ rest /\ Forall2 (fun c x => cls c x = true) w w' /\
    lang tail rest.
Proof.
  revert s. induction w as [|c w IH]; intros s; simpl.
  - intros H. exists [], s. repeat split; [constructor | done].
  - intros (s1 & s2 & -> & (x & -> & Hx)%lang_cls_inv & Hrest)%lang_seq_inv.
    apply IH in Hrest as (w' & rest & -> & Hw & Htail).
    exists (x :: w'), rest. repeat split; [by constructor | done].
Qed.

End RegexFacts.

(* ===================================================================== *)
(** * The URL validator *)
(* ===================================================================== *)

Section ValidatorFacts.

Import Regex Validator.
Context {U : Unicode}.

(** ** Stripping *)

Lemma lstrip_suffix s : exists a, s = a ++ lstrip s.
Proof.
  induction s as [|c s [a IH]]; simpl.
  - by exists [].
  - destruct (is_space c).
    + exists (c :: a). simpl. by rewrite <- IH.
    + by exists [].
Qed.

Lemma strip_infix s : exists a b, s = a ++ strip s ++ b.
Proof.
  unfold strip, rstrip.
  destruct (lstrip_suffix s) as [a Ha].
  destruct (lstrip_suffix (rev (lstrip s))) as [b Hb].
  exists a, (rev b). rewrite <- rev_app_distr, <- Hb, rev_involutive. done.
Qed.

Lemma lstrip_blank s : Forall (fun c => is_space c = true) s -> lstrip s = [].
Proof. induction 1 as [|c s Hc _ IH]; simpl; [done | by rewrite Hc]. Qed.

(** The empty string and strings of white space only are rejected. *)
Lemma validate_url_blank url :
  Forall (fun c => is_space c = true) url -> validate_url url = false.
Proof.
  intros Hb. unfold validate_url, strip.
  rewrite (lstrip_blank _ Hb). simpl. by rewrite orb_true_r.
Qed.

(** ** The scheme *)

Lemma ascii_lower_eq_inv x c :
  ascii_lower x = c -> (c < 97 \/ 122 < c) -> x = c.
Proof.
  unfold ascii_lower.
  destruct ((65 <=? x) && (x <=? 90)) eqn:E; [|done].
  apply andb_true_iff in E as [E1%N.leb_le E2%N.leb_le]. lia.
Qed.

Lemma lit_i_colon x : lit_i 58 x = true -> x = 58.
Proof.
  unfold lit_i. change (ascii_lower 58) with 58.
  change (ignorecase_extras 58) with (@nil N). simpl existsb.
  rewrite orb_false_r. intros H%N.eqb_eq.
  apply ascii_lower_eq_inv in H; [done | lia].
Qed.

Lemma lit_i_slash x : lit_i 47 x = true -> x = 47.
Proof.
  unfold lit_i. change (ascii_lower 47) with 47.
  change (ignorecase_extras 47) with (@nil N). simpl existsb.
  rewrite orb_false_r. intros H%N.eqb_eq.
  apply ascii_lower_eq_inv in H; [done | lia].
Qed.

Lemma pattern_ci_separator text : pattern_ci (py "://") text -> text = py "://".
Proof.
  change (py "://") with [58; 47; 47]. unfold pattern_ci. intros H.
  apply Forall2_cons_inv_l in H as (x1 & t1 & ->%lit_i_colon & H & ->).
  apply Forall2_cons_inv_l in H as (x2 & t2 & ->%lit_i_slash & H & ->).
  apply Forall2_cons_inv_l in H as (x3 & t3 & ->%lit_i_slash & H & ->).
  by apply Forall2_nil_inv_l in H as ->.
Qed.

(** An accepted string, once stripped, starts with [http] or [https]
    as [re.IGNORECASE] compares them, followed by [://]. *)
Lemma validate_url_scheme url :
  validate_url url = true ->
  exists scheme rest,
    strip url = scheme ++ py "://" ++ rest /\
    (pattern_ci (py "http") scheme \/ pattern_ci (py "https") scheme).
Proof.
  unfold validate_url.
  destruct (negb (truthy url) || negb (truthy (strip url))); [done|].
  intros H%matches_spec. unfold url_pattern in H.
  apply lang_word_inv in H as (w1 & r1 & -> & Hw1 & H).
  apply lang_seq_inv in H as (o & r2 & -> & Ho & H).
  apply lang_word_inv in H as (w2 & r3 & -> & ->%pattern_ci_separator & _).
  apply lang_opt_inv in Ho as [(s & -> & Hs)%lang_cls_inv | ->].
  - exists (w1 ++ [s]), r3. split; [by rewrite <- !app_assoc|].
    right. change (py "https") with (py "http" ++ [115]).
    apply Forall2_app; [done | by repeat constructor].
  - exists w1, r3. split; [done | by left].
Qed.

(** Away from U+017F the comparison of [re.IGNORECASE] with the
    letters of [https] is the ASCII one. *)
Lemma lit_i_scheme_letter c x :
  c ∈ [104; 116; 112; 115] -> x ≠ 383 -> lit_i c x = true -> ascii_lower x = c.
Proof.
  rewrite !elem_of_cons, elem_of_nil. unfold lit_i.
  intros [->|[->|[->|[->|[]]]]] Hx;
    match goal with
    | |- context [ascii_lower ?k =? ascii_lower ?c] =>
        change (ascii_lower c) with c
    end;
    match goal with
    | |- context [ignorecase_extras ?c] =>
        let v := eval vm_compute in (ignorecase_extras c) in
        change (ignorecase_extras c) with v
    end; simpl existsb; rewrite ?orb_false_r;
    intros H; try (by apply N.eqb_eq in H).
  apply orb_true_iff in H as [H%N.eqb_eq | H%N.eqb_eq]; done.
Qed.

Lemma pattern_ci_scheme w text :
  Forall (fun c => c ∈ [104; 116; 112; 115]) w ->
  383 ∉ text -> pattern_ci w text -> ascii_lower <$> text = w.
Proof.
  intros Hw Hno Hci. induction Hci as [|c x w text Hcx _ IH]; [done|].
  apply Forall_cons in Hw as [Hc Hw].
  apply not_elem_of_cons in Hno as [Hx Hno].
  simpl. f_equal; [by apply lit_i_scheme_letter | by apply IH].
Qed.

Lemma occurs_fmap (f : N -> N) needle a s b :
  f <$> s = needle -> occurs needle (f <$> (a ++ s ++ b)).
Proof.
  intros <-. exists (f <$> a), (f <$> b). by rewrite !fmap_app.
Qed.

(** The claim of the specification, for every input in which U+017F
    does not occur: without an http or https scheme the string is
    rejected. *)
Theorem validate_url_rejects_without_scheme url :
  383 ∉ url -> ~ contains_http_scheme url -> validate_url url = false.
Proof.
  intros Hno Hscheme. destruct (validate_url url) eqn:E; [|done].
  exfalso. apply Hscheme.
  destruct (validate_url_scheme url E) as (scheme & rest & Hs & Hci).
  destruct (strip_infix url) as (a & b & Hurl).
  assert (Hno' : 383 ∉ scheme).
  { intros Hin. apply Hno. rewrite Hurl, Hs.
    rewrite !elem_of_app. right. left. by left. }
  assert (Hsep : ascii_lower <$> py "://" = py "://") by reflexivity.
  assert (Hurl' : url = a ++ (scheme ++ py "://") ++ (rest ++ b)).
  { rewrite Hurl, Hs. by rewrite <- !app_assoc. }
  rewrite Hurl'. unfold contains_http_scheme.
  assert (Hhttp : Forall (fun c => c ∈ [104; 116; 112; 115]) (py "http")).
  { change (py "http") with [104; 116; 116; 112].
    repeat constructor; set_solver. }
  assert (Hhttps : Forall (fun c => c ∈ [104; 116; 112; 115]) (py "https")).
  { change (py "https") with [104; 116; 116; 112; 115].
    repeat constructor; set_solver. }
  destruct Hci as [Hci | Hci]; [left | right];
    apply pattern_ci_scheme in Hci; try done;
    apply occurs_fmap; rewrite fmap_app, Hci; reflexivity.
Qed.

(** C7. [validate_url] accepts [long_s_url], a string in which neither
    [http://] nor [https://] occurs: [re.IGNORECASE] lets U+017F (LATIN
    SMALL LETTER LONG S) stand for the [s] of the pattern.  The claim
    that every string without an http or https scheme is rejected fails
    at this input. *)
Theorem validate_url_accepts_long_s :
  validate_url long_s_url = true /\ ~ contains_http_scheme long_s_url.
Proof.
  split; [vm_compute; reflexivity|].
  unfold contains_http_scheme.
  intros [H | H]; apply str_in_spec in H; vm_compute in H; discriminate H.
Qed.

End ValidatorFacts.

Example validate_not_a_url :
  @Validator.validate_url plain_unicode (py "not-a-url") = false.
Proof. reflexivity. Qed.

Example validate_scheme_case_insensitive :
  @Validator.validate_url plain_unicode (py "HTTPS://Example.com/x") = true.
Proof. vm_compute. reflexivity. Qed.

Example validate_youtube :
  @Validator.validate_url plain_unicode
    (py "https://www.youtube.com/watch?v=abc123") = true.
Proof. vm_compute. reflexivity. Qed.


(* ===================================================================== *)
(** * The download orchestrator *)
(* ===================================================================== *)

Section OrchestratorFacts.

Import Options World Orchestrator.
Context {U : Unicode} {E : Externals}.

(** Logging adds to the page and to the terminal and nothing else. *)
Lemma log_to_console_spec message level st :
  exists pg tm,
    log_to_console message level st
    = (State (world st) (session st) pg tm, Returns tt).
Proof.
  unfold log_to_console, bind, get_world, logger, show.
  repeat case_decide; simpl; eauto.
Qed.

Lemma find_entry_head name e rest : find_entry name ((name, e) :: rest) = Some e.
Proof. simpl. by rewrite decide_True. Qed.

(** C3. After every call of [download_content], whether it returns,
    raises its own error or passes on an exception of the library, the
    scratch directory of the call is absent from the file system, and
    with it everything it held. *)
Theorem download_content_cleans_up (url download_type extension quality : str)
    (st : state) :
  let st' := fst (download_content url download_type extension quality st) in
  fs (world st') !! scratch_dir st = None /\
  listing (world st') (scratch_dir st) = [].
Proof.
  cbv zeta.
  assert (Hgone :
    fs (world (fst (download_content url download_type extension quality st)))
      !! scratch_dir st = None).
  { unfold download_content, bind.
    destruct (log_to_console_spec
                (py "Starting download: type=" ++ download_type ++ py ", ext="
                 ++ extension ++ py ", quality=" ++ quality) (py "info") st)
      as (pg & tm & ->).
    unfold with_temporary_directory, scratch_dir. simpl world.
    match goal with |- context [try_except ?b ?h ?s] =>
      destruct (try_except b h s) as [st2 r] end.
    simpl. apply lookup_delete_eq. }
  split; [exact Hgone|]. unfold listing. by rewrite Hgone.
Qed.

Ltac log_step :=
  match goal with
  | |- context [log_to_console ?m ?l ?s] =>
      let pg := fresh "pg" in
      let tm := fresh "tm" in
      destruct (log_to_console_spec m l s) as (pg & tm & ->)
  end.

(** C2. When the fetch of a call completes without raising and the
    scratch directory then holds nothing, [download_content] raises the
    "no downloaded file found" error; it does not return. *)
Theorem download_content_no_output_file
    (url download_type extension quality : str) (st : state)
    (fetched : env outside) :
  fetch_of_call url download_type extension quality st = (fetched, Returns tt) ->
  listing fetched (scratch_dir st) = [] ->
  snd (download_content url download_type extension quality st)
  = Raises (Exception no_file_message).
Proof.
  unfold fetch_of_call, scratch_dir. intros Hfetch Hempty.
  unfold download_content, bind. log_step.
  unfold with_temporary_directory, try_except, bind, external.
  cbn [world session page terminal].
  rewrite Hfetch. unfold glob_star, bind, get_world, ret.
  cbn [world session page terminal].
  rewrite Hempty. cbn [raise Exception exn_is_exception]. log_step. reflexivity.
Qed.


(** Whatever the fetch raises, [download_content] raises the same,
    also when the fetch has left files behind. *)
Lemma download_content_fetch_raises
    (url download_type extension quality : str) (st : state)
    (fetched : env outside) (e : exn) :
  fetch_of_call url download_type extension quality st = (fetched, Raises e) ->
  snd (download_content url download_type extension quality st) = Raises e.
Proof.
  unfold fetch_of_call, scratch_dir. intros Hfetch.
  unfold download_content, bind. log_step.
  unfold with_temporary_directory, try_except, bind, external.
  cbn [world session page terminal]. rewrite Hfetch.
  destruct (exn_is_exception e); [|reflexivity].
  log_step. reflexivity.
Qed.

End OrchestratorFacts.


(* ===================================================================== *)
(** * Session state across the handlers of [main] *)
(* ===================================================================== *)

Section SessionFacts.

Import Options World Orchestrator App.
Context {U : Unicode} {E : Externals}.

(** ** Computations that keep the session state *)

Lemma keeps_ret {A} (a : A) : keeps_session (ret a).
Proof. by intros st. Qed.

Lemma keeps_raise {A} (e : exn) : keeps_session (@raise _ A e).
Proof. by intros st. Qed.

Lemma keeps_bind {A B} (m : M A) (k : A -> M B) :
  keeps_session m -> (forall a, keeps_session (k a)) ->
  keeps_session (bind m k).
Proof.
  intros Hm Hk st. unfold bind. specialize (Hm st).
  destruct (m st) as [st1 [a|e]]; simpl in *; [|done].
  by rewrite Hk.
Qed.

Lemma keeps_try_except {A} (body : M A) (handler : exn -> M A) :
  keeps_session body -> (forall e, keeps_session (handler e)) ->
  keeps_session (try_except body handler).
Proof.
  intros Hb Hh st. unfold try_except. specialize (Hb st).
  destruct (body st) as [st1 [a|e]]; simpl in *; [done|].
  destruct (exn_is_exception e); [by rewrite Hh | done].
Qed.

Lemma keeps_external {A} (call : env outside -> env outside * outcome A) :
  keeps_session (external call).
Proof. intros st. unfold external. by destruct (call (world st)). Qed.

Lemma keeps_get_world : keeps_session get_world.
Proof. by intros st. Qed.

Lemma keeps_get_session : keeps_session get_session.
Proof. by intros st. Qed.

Lemma keeps_show e : keeps_session (show e).
Proof. by intros st. Qed.

Lemma keeps_logger level message : keeps_session (logger level message).
Proof. by intros st. Qed.

Lemma keeps_with_temporary_directory {A} (body : str -> M A) :
  (forall d, keeps_session (body d)) ->
  keeps_session (with_temporary_directory body).
Proof.
  intros Hb st. unfold with_temporary_directory.
  specialize (Hb (mkdtemp (world st))
    (State (set_fs (insert (mkdtemp (world st)) []) (world st))
           (session st) (page st) (terminal st))).
  destruct (body _ _) as [st1 r]. done.
Qed.

Create HintDb keeps.
Hint Resolve keeps_ret keeps_raise keeps_external keeps_get_world
  keeps_get_session keeps_show keeps_logger : keeps.

Ltac keeps :=
  repeat first
    [ apply keeps_bind; [|intros ?]
    | apply keeps_try_except; [|intros ?]
    | apply keeps_with_temporary_directory; intros ?
    | progress auto with keeps
    | match goal with
      | |- keeps_session (match ?x with _ => _ end) => destruct x
      | |- keeps_session (if ?b then _ else _) => destruct b
      end ].

Lemma keeps_log_to_console message level :
  keeps_session (log_to_console message level).
Proof. unfold log_to_console. keeps. Qed.

Hint Resolve keeps_log_to_console : keeps.

Lemma keeps_extract_metadata url : keeps_session (extract_metadata url).
Proof. unfold extract_metadata. keeps. Qed.

Lemma keeps_download_content url download_type extension quality :
  keeps_session (download_content url download_type extension quality).
Proof. unfold download_content, glob_star, read_file. keeps. Qed.

(** ** What each handler does to the session state *)

(** The analysis handler leaves the session state alone, except when
    the analysis succeeds: then it stores the new metadata and resets
    the file bytes, keeping the file name. *)
Lemma handle_analyze_session inp st :
  session (fst (handle_analyze inp st)) = session st \/
  exists md,
    analysis_succeeds inp st md /\
    session (fst (handle_analyze inp st))
    = Session (Some md) None (ss_file_name (session st)).
Proof.
  unfold handle_analyze, analysis_succeeds.
  destruct (analyze_btn inp) eqn:Hbtn; simpl; [|by left].
  destruct (truthy (url_input inp)) eqn:Hurl; simpl; [|by left].
  destruct (Validator.validate_url (url_input inp)) eqn:Hvalid; simpl; [|by left].
  unfold try_except, bind.
  pose proof (keeps_extract_metadata (url_input inp) st) as Hkeep.
  destruct (extract_metadata (url_input inp) st) as [st1 [[md|]|e]];
    simpl in Hkeep.
  - right. exists md. rewrite <- Hkeep. done.
  - by left.
  - destruct (exn_is_exception e); by left.
Qed.

(** The download handler leaves the session state alone, except when
    the download succeeds: then it replaces the file bytes and the file
    name by those of the downloaded file. *)
Lemma handle_download_session md inp st :
  session (fst (handle_download md inp st)) = session st \/
  exists name data,
    download_btn inp = true /\
    snd (download_content (md_url md) (dl_type inp) (extension inp)
           (quality inp) st) = Returns (name, data) /\
    session (fst (handle_download md inp st))
    = Session (ss_metadata (session st)) (Some data) (Some name).
Proof.
  unfold handle_download.
  destruct (download_btn inp) eqn:Hbtn; [|by left].
  unfold try_except, bind.
  pose proof (keeps_download_content (md_url md) (dl_type inp)
                (extension inp) (quality inp) st) as Hkeep.
  destruct (download_content _ _ _ _ st) as [st1 [[name data]|e]];
    simpl in Hkeep.
  - right. exists name, data. rewrite <- Hkeep. done.
  - destruct (exn_is_exception e); by left.
Qed.

(** The download handler never changes the metadata. *)
Lemma handle_download_metadata md inp st :
  ss_metadata (session (fst (handle_download md inp st)))
  = ss_metadata (session st).
Proof.
  destruct (handle_download_session md inp st)
    as [-> | (name & data & _ & _ & ->)]; done.
Qed.

Lemma handle_analyze_returns inp st :
  snd (handle_analyze inp st) = Returns tt \/
  exists e, snd (handle_analyze inp st) = Raises e /\
            session (fst (handle_analyze inp st)) = session st.
Proof.
  unfold handle_analyze.
  destruct (analyze_btn inp && truthy (url_input inp)); [|by left].
  destruct (negb (Validator.validate_url (url_input inp))); [by left|].
  unfold try_except, bind.
  pose proof (keeps_extract_metadata (url_input inp) st) as Hkeep.
  destruct (extract_metadata (url_input inp) st) as [st1 [[md|]|e]];
    simpl in Hkeep; [by left | by left |].
  destruct (exn_is_exception e); [by left | right; eauto].
Qed.

Lemma handle_analyze_success inp st md :
  analysis_succeeds inp st md ->
  snd (handle_analyze inp st) = Returns tt /\
  session (fst (handle_analyze inp st))
  = Session (Some md) None (ss_file_name (session st)).
Proof.
  intros (Hbtn & Hurl & Hvalid & Hok). unfold handle_analyze.
  rewrite Hbtn, Hurl, Hvalid. simpl. unfold try_except, bind.
  pose proof (keeps_extract_metadata (url_input inp) st) as Hkeep.
  destruct (extract_metadata (url_input inp) st) as [st1 r].
  simpl in Hok, Hkeep. subst r. simpl. by rewrite Hkeep.
Qed.

Lemma handle_download_success md inp st name data :
  download_btn inp = true ->
  snd (download_content (md_url md) (dl_type inp) (extension inp)
         (quality inp) st) = Returns (name, data) ->
  session (fst (handle_download md inp st))
  = Session (ss_metadata (session st)) (Some data) (Some name).
Proof.
  intros Hbtn Hok. unfold handle_download. rewrite Hbtn.
  unfold try_except, bind.
  pose proof (keeps_download_content (md_url md) (dl_type inp)
                (extension inp) (quality inp) st) as Hkeep.
  destruct (download_content _ _ _ _ st) as [st1 r].
  simpl in Hok, Hkeep. subst r. simpl. by rewrite Hkeep.
Qed.

(** A run of [main], handler by handler. *)
Lemma after_unfold inp st :
  after inp st =
  match handle_analyze inp st with
  | (st1, Returns _) =>
      match ss_metadata (session st1) with
      | Some md => fst (handle_download md inp st1)
      | None => st1
      end
  | (st1, Raises _) => st1
  end.
Proof.
  unfold after, main, bind, get_session.
  destruct (handle_analyze inp st) as [st1 [[]|e]]; [|done].
  cbn [session]. by destruct (ss_metadata (session st1)).
Qed.

(** C4, as amended.  In every run of [main]: a download that succeeds
    replaces the file bytes and the file name by those of the new file;
    otherwise an analysis that succeeds resets the file bytes to [None]
    and keeps the file name; otherwise both are retained unchanged. *)
Theorem file_retained_replaced_or_reset (inp : inputs) (st : state) :
  let s := session st in
  let s' := session (after inp st) in
  (forall name data,
      download_succeeds inp st name data ->
      ss_file_ready s' = Some data /\ ss_file_name s' = Some name) /\
  (forall md,
      analysis_succeeds inp st md ->
      (forall name data, ~ download_succeeds inp st name data) ->
      ss_file_ready s' = None /\ ss_file_name s' = ss_file_name s) /\
  ((forall md, ~ analysis_succeeds inp st md) ->
   (forall name data, ~ download_succeeds inp st name data) ->
   ss_file_ready s' = ss_file_ready s /\ ss_file_name s' = ss_file_name s).
Proof.
  cbv zeta. rewrite after_unfold. split; [|split].
  - intros name data (md & Hret & Hmd & Hbtn & Hdl).
    destruct (handle_analyze inp st) as [st1 r]. simpl in Hret, Hmd, Hdl.
    subst r. rewrite Hmd.
    by rewrite (handle_download_success md inp st1 name data Hbtn Hdl).
  - intros md Hok Hno.
    destruct (handle_analyze_success inp st md Hok) as [Hret Hs1].
    unfold download_succeeds in Hno.
    destruct (handle_analyze inp st) as [st1 r]. simpl in Hret, Hs1, Hno.
    subst r. rewrite Hs1. cbn [ss_metadata].
    destruct (handle_download_session md inp st1)
      as [-> | (name & data & Hbtn & Hdl & _)]; [by rewrite Hs1|].
    exfalso. apply (Hno name data). exists md. by rewrite Hs1.
  - intros Hno_an Hno_dl.
    pose proof (handle_analyze_session inp st) as Han.
    pose proof (handle_analyze_returns inp st) as Hret.
    unfold download_succeeds in Hno_dl.
    destruct (handle_analyze inp st) as [st1 r].
    simpl in Han, Hret, Hno_dl.
    destruct Han as [Hs1 | (md & Hok & _)]; [|by destruct (Hno_an md)].
    destruct r as [[]|e]; [|by rewrite Hs1].
    destruct (ss_metadata (session st1)) as [md|] eqn:Hmd; [|by rewrite Hs1].
    destruct (handle_download_session md inp st1)
      as [-> | (name & data & Hbtn & Hdl & _)]; [by rewrite Hs1|].
    exfalso. apply (Hno_dl name data). by exists md.
Qed.

(** C6. When a download attempt fails, by an exception of the fetch or
    for want of an output file, the metadata held in the session state
    are the same after the run as before it, and so is the rest of the
    session state. *)
Theorem failed_download_keeps_metadata
    (inp : inputs) (st : state) (md : metadata) (e : exn) :
  download_fails inp st md e ->
  ss_metadata (session (after inp st)) = Some md /\
  session (after inp st) = session st.
Proof.
  intros (Han & Hbtn & Hmd & Hfail).
  assert (Hsession : session (after inp st) = session st).
  { unfold after, main, bind, handle_analyze. rewrite Han. simpl.
    rewrite Hmd.
    destruct (handle_download_session md inp st)
      as [Hsame | (name & data & _ & Hdl & _)]; [done|].
    rewrite Hfail in Hdl. discriminate Hdl. }
  by rewrite Hsession.
Qed.

(** ** The error classifier of the analysis handler *)

Lemma occurs_prefix (a b hay : str) : occurs (a ++ b) hay -> occurs a hay.
Proof.
  intros (before & after & ->). exists before, (b ++ after).
  by rewrite <- app_assoc.
Qed.

Lemma login_required_stable : lower_stable (py "login required").
Proof. vm_compute. repeat constructor. Qed.

Lemma analyze_error_text_login error_msg :
  occurs (py "login required") error_msg ->
  analyze_error_text error_msg = msg_login_required.
Proof.
  intros Hocc. unfold analyze_error_text.
  apply (lower_keeps_stable _ _ login_required_stable) in Hocc.
  change (py "login required") with (py "login" ++ py " required") in Hocc.
  apply occurs_prefix, str_in_spec in Hocc. by rewrite Hocc.
Qed.

(** C9. When the extraction of an analysis raises an error whose
    message contains "login required", the handler shows the message of
    the "platform requires login" branch, which is not the message of
    the generic fallback (the prefix followed by the truncated raw
    error), and returns. *)
Theorem login_required_selects_login_branch
    (inp : inputs) (st : state) (e : exn) :
  extraction_fails inp st e ->
  occurs (py "login required") (exn_text e) ->
  analyze_error_text (exn_text e) = msg_login_required /\
  msg_login_required ≠ msg_error_prefix ++ slice_to 100 (exn_text e) /\
  snd (handle_analyze inp st) = Returns tt /\
  exists shown,
    page (fst (handle_analyze inp st)) = shown ++ [ErrorBox msg_login_required].
Proof.
  intros (Hbtn & Hurl & Hvalid & Hraise & Hexc) Hocc.
  pose proof (analyze_error_text_login _ Hocc) as Htext.
  split; [done|]. split; [discriminate|].
  unfold handle_analyze. rewrite Hbtn, Hurl, Hvalid. simpl.
  unfold try_except, bind.
  destruct (extract_metadata (url_input inp) st) as [st1 r].
  simpl in Hraise. subst r. rewrite Hexc, Htext. simpl. eauto.
Qed.

(** An [Exception] of the library's inspection is passed on by
    [extract_metadata] unchanged. *)
Lemma extract_metadata_reraises url st w e :
  ydl_extract_info metadata_ydl_opts url (world st) = (w, Raises e) ->
  exn_is_exception e = true ->
  snd (extract_metadata url st) = Raises e.
Proof.
  intros Hcall Hexc. unfold extract_metadata, bind at 1.
  destruct (log_to_console_spec (py "Extracting metadata from: " ++ url)
              (py "info") st) as (pg & tm & ->).
  unfold try_except, bind, external. cbn [world session page terminal].
  rewrite Hcall, Hexc.
  match goal with |- context [log_to_console ?m ?l ?s] =>
    destruct (log_to_console_spec m l s) as (pg' & tm' & ->) end.
  reflexivity.
Qed.

End SessionFacts.

(* ===================================================================== *)
(** * Runs of the model on concrete collaborators *)
(* ===================================================================== *)

Section Runs.

Import Options World Orchestrator App Demo.

(** C4, as stated, fails: a successful analysis resets the file bytes
    of a session that holds a file, in a run without any download. *)
Lemma analysis_clears_file : ~ file_retained_unless_download.
Proof.
  intros Hclaim.
  destruct (Hclaim plain_unicode
              (externals [] (Returns tt) (Returns (Some some_info)))
              press_analyze
              (@start (externals [] (Returns tt) (Returns (Some some_info)))
                 empty_world with_file)
              clip (py "clip.mp4") eq_refl eq_refl eq_refl) as [Hready _].
  vm_compute in Hready. discriminate Hready.
Qed.


Local Abbreviation run_download E :=
  (@download_content plain_unicode E video_url (py "video") (py "mp4")
     (py "best") (@start E empty_world no_session)).

Lemma download_content_no_output_file_witness :
  let E := externals [] (Returns tt) (Returns None) in
  exists fetched,
    @fetch_of_call E video_url (py "video") (py "mp4") (py "best")
      (@start E empty_world no_session) = (fetched, Returns tt) /\
    listing fetched tmp = [] /\
    snd (run_download E) = Raises (Exception no_file_message).
Proof.
  cbv zeta. eexists. split; [reflexivity|].
  split; [vm_compute; reflexivity|].
  eapply download_content_no_output_file;
    [reflexivity | vm_compute; reflexivity].
Defined.


(** The three ways out of [download_content], each with the scratch
    directory gone afterwards. *)
Example exit_by_return :
  let E := externals [(py "clip.mp4", File clip)] (Returns tt) (Returns None) in
  snd (run_download E) = Returns (py "clip.mp4", clip) /\
  fs (world (fst (run_download E))) !! tmp = None.
Proof. vm_compute. done. Qed.

Example exit_by_no_file :
  let E := externals [] (Returns tt) (Returns None) in
  snd (run_download E) = Raises (Exception no_file_message) /\
  fs (world (fst (run_download E))) !! tmp = None.
Proof. vm_compute. done. Qed.

Example exit_by_library_exception :
  let E := externals [(py "clip.mp4.part", File clip)] (Raises forbidden)
             (Returns None) in
  snd (run_download E) = Raises forbidden /\
  fs (world (fst (run_download E))) !! tmp = None.
Proof. vm_compute. done. Qed.

Example exit_by_interrupt :
  let E := externals [] (Raises interrupt) (Returns None) in
  snd (run_download E) = Raises interrupt /\
  fs (world (fst (run_download E))) !! tmp = None.
Proof. vm_compute. done. Qed.

(** Where the first entry of the enumeration is a directory, opening
    it fails and the call raises. *)
Example first_entry_a_directory :
  let E := externals [(py "parts", Dir []); (py "clip.mp4", File clip)]
             (Returns tt) (Returns None) in
  snd (run_download E)
  = Raises (Exception (py "[Errno 21] Is a directory: '/tmp/tmpab12/parts'")).
Proof. vm_compute. reflexivity. Qed.

Lemma failed_download_keeps_metadata_witness :
  let E := externals [] (Raises forbidden) (Returns None) in
  let st := @start E empty_world (Session (Some some_metadata) None None) in
  @download_fails plain_unicode E press_download st some_metadata forbidden /\
  ss_metadata (session (@after plain_unicode E press_download st))
  = Some some_metadata.
Proof.
  cbv zeta.
  assert (Hfail :
    let E := externals [] (Raises forbidden) (Returns None) in
    @download_fails plain_unicode E press_download
      (@start E empty_world (Session (Some some_metadata) None None))
      some_metadata forbidden).
  { unfold download_fails. split; [reflexivity|]. split; [reflexivity|].
    split; [reflexivity|]. vm_compute. reflexivity. }
  split; [exact Hfail|].
  exact (proj1 (failed_download_keeps_metadata _ _ _ _ Hfail)).
Defined.

Lemma login_required_selects_login_branch_witness :
  let E := externals [] (Returns tt) (Raises login_error) in
  let st := @start E empty_world no_session in
  @extraction_fails plain_unicode E press_analyze st login_error /\
  occurs (py "login required") (exn_text login_error) /\
  @analyze_error_text plain_unicode (exn_text login_error) = msg_login_required.
Proof.
  cbv zeta.
  assert (Hfail :
    let E := externals [] (Returns tt) (Raises login_error) in
    @extraction_fails plain_unicode E press_analyze
      (@start E empty_world no_session) login_error).
  { unfold extraction_fails. split; [reflexivity|]. split; [reflexivity|].
    split; [vm_compute; reflexivity|].
    split; [vm_compute; reflexivity | reflexivity]. }
  assert (Hocc : occurs (py "login required") (exn_text login_error)).
  { apply str_in_spec. vm_compute. reflexivity. }
  split; [exact Hfail|]. split; [exact Hocc|].
  exact (proj1 (login_required_selects_login_branch _ _ _ Hfail Hocc)).
Defined.

Lemma file_retained_replaced_or_reset_witness :
  let E := externals [] (Returns tt) (Returns (Some some_info)) in
  let st := @start E empty_world with_file in
  (exists md, @analysis_succeeds plain_unicode E press_analyze st md) /\
  (forall name data,
      ~ @download_succeeds plain_unicode E press_analyze st name data) /\
  ss_file_ready (session (@after plain_unicode E press_analyze st)) = None /\
  ss_file_name (session (@after plain_unicode E press_analyze st))
  = Some (py "clip.mp4").
Proof.
  cbv zeta.
  pose (E := externals [] (Returns tt) (Returns (Some some_info))).
  assert (Hok : @analysis_succeeds plain_unicode E press_analyze
                  (@start E empty_world with_file) some_metadata).
  { unfold analysis_succeeds. split; [reflexivity|]. split; [reflexivity|].
    split; vm_compute; reflexivity. }
  assert (Hno : forall name data,
             ~ @download_succeeds plain_unicode E press_analyze
                 (@start E empty_world with_file) name data).
  { intros name data (md & _ & _ & Hbtn & _). discriminate Hbtn. }
  split; [by exists some_metadata|]. split; [exact Hno|].
  exact (proj1 (proj2 (file_retained_replaced_or_reset press_analyze
                         (@start E empty_world with_file)))
           some_metadata Hok Hno).
Defined.

(** A run in which the download succeeds replaces the file bytes and
    the file name; the metadata stay. *)
Example download_replaces_file :
  let E := externals [(py "new.mp4", File [Byte.x07])] (Returns tt)
             (Returns None) in
  let st := @start E empty_world
              (Session (Some some_metadata) (Some clip) (Some (py "clip.mp4"))) in
  session (@after plain_unicode E press_download st)
  = Session (Some some_metadata) (Some [Byte.x07]) (Some (py "new.mp4")).
Proof. vm_compute. reflexivity. Qed.

(** A failed analysis keeps the file. *)
Example failed_analysis_keeps_file :
  let E := externals [] (Returns tt) (Raises login_error) in
  let st := @start E empty_world with_file in
  session (@after plain_unicode E press_analyze st) = with_file.
Proof. vm_compute. reflexivity. Qed.

End Runs.

(* ===================================================================== *)
(** * The display helpers *)
(* ===================================================================== *)

Section DisplayFacts.

Import Display.
Local Open Scope Z_scope.

Example format_duration_examples :
  format_duration (Some 5) = py "00:05" /\
  format_duration (Some 3599) = py "59:59" /\
  format_duration (Some 3661) = py "01:01:01" /\
  format_duration (Some 360000) = py "100:00:00" /\
  format_duration (Some (-1)) = py "59:59" /\
  format_duration (Some (-3600)) = py "00:00" /\
  parse_duration (py "100:00:00") = Some 360000.
Proof. vm_compute. repeat split. Qed.

Lemma uint_codes_digits u : Forall is_digit_code (uint_codes u).
Proof.
  induction u; simpl; constructor; try done; unfold is_digit_code; lia.
Qed.

Lemma codes_uint_codes u : codes_uint (uint_codes u) = Some u.
Proof. induction u; simpl; [done | rewrite IHu; reflexivity ..]. Qed.

Lemma decimal_digits n : Forall is_digit_code (decimal n).
Proof. apply uint_codes_digits. Qed.

Lemma decimal_nonempty n : decimal n <> [].
Proof.
  unfold decimal. destruct n as [|p]; [done|].
  intros H. pose proof (DecimalN.Unsigned.of_to (N.pos p)) as Hback.
  destruct (N.to_uint (N.pos p)); try discriminate H. discriminate Hback.
Qed.

Lemma codes_uint_zeros k s :
  codes_uint (replicate k 48%N ++ s)
  = Nat.iter k Decimal.D0 <$> codes_uint s.
Proof.
  induction k as [|k IH]; simpl.
  - by destruct (codes_uint s).
  - rewrite IH. by destruct (codes_uint s).
Qed.

Lemma of_uint_zeros k u : N.of_uint (Nat.iter k Decimal.D0 u) = N.of_uint u.
Proof. induction k as [|k IH]; [done | exact IH]. Qed.

(** Reading back a zero-padded number gives the number. *)
Lemma parse_decimal_zfill width n :
  parse_decimal (zfill width (decimal n)) = Some (Z.of_N n).
Proof.
  unfold parse_decimal, zfill.
  destruct (replicate (width - length (decimal n)) 48%N ++ decimal n) eqn:E.
  - apply app_eq_nil in E as [_ E]. by apply decimal_nonempty in E.
  - rewrite <- E, codes_uint_zeros. unfold decimal.
    rewrite codes_uint_codes. simpl.
    by rewrite of_uint_zeros, DecimalN.Unsigned.of_to.
Qed.

Lemma zfill_digits width n : Forall is_digit_code (zfill width (decimal n)).
Proof.
  unfold zfill. apply Forall_app. split; [|apply decimal_digits].
  apply Forall_replicate. unfold is_digit_code. lia.
Qed.

Lemma format_02d_nonneg z : 0 <= z -> format_02d z = zfill 2 (decimal (Z.to_N z)).
Proof.
  intros Hz. unfold format_02d.
  destruct (z <? 0) eqn:E; [apply Z.ltb_lt in E; lia | done].
Qed.

Lemma split_on_last (field : str) :
  Forall is_digit_code field -> split_on 58 field = [field].
Proof.
  induction 1 as [|c field Hc _ IH]; simpl; [done|].
  destruct (c =? 58)%N eqn:E.
  - apply N.eqb_eq in E. unfold is_digit_code in Hc. lia.
  - by rewrite IH.
Qed.

Lemma split_on_field (field rest : str) :
  Forall is_digit_code field ->
  split_on 58 (field ++ 58%N :: rest) = field :: split_on 58 rest.
Proof.
  induction 1 as [|c field Hc _ IH]; simpl; [done|].
  destruct (c =? 58)%N eqn:E.
  - apply N.eqb_eq in E. unfold is_digit_code in Hc. lia.
  - by rewrite IH.
Qed.

(** X1. The text shown for a positive whole number of seconds reads back
    as that number: hours, minutes and seconds lose nothing. *)
Theorem format_duration_round_trip (z : Z) :
  0 < z -> parse_duration (format_duration (Some z)) = Some z.
Proof.
  intros Hz. unfold format_duration.
  destruct (z =? 0) eqn:E0; [apply Z.eqb_eq in E0; lia|].
  cbv zeta. change (py ":") with [58%N].
  assert (Hm : 0 <= z mod 3600 / 60) by (apply Z.div_pos; [apply Z.mod_pos_bound|]; lia).
  assert (Hs : 0 <= z mod 60) by (apply Z.mod_pos_bound; lia).
  assert (Hh : 0 <= z / 3600) by (apply Z.div_pos; lia).
  rewrite !format_02d_nonneg by done.
  unfold parse_duration.
  destruct (0 <? z / 3600) eqn:Eh.
  - simpl app.
    rewrite split_on_field by apply zfill_digits.
    rewrite split_on_field by apply zfill_digits.
    rewrite split_on_last by apply zfill_digits.
    rewrite !parse_decimal_zfill, !Z2N.id by done.
    f_equal. Z.to_euclidean_division_equations; lia.
  - apply Z.ltb_ge in Eh. simpl app.
    rewrite split_on_field by apply zfill_digits.
    rewrite split_on_last by apply zfill_digits.
    rewrite !parse_decimal_zfill, !Z2N.id by done.
    f_equal. Z.to_euclidean_division_equations; lia.
Qed.

Lemma format_duration_round_trip_witness :
  0 < 3661 /\ parse_duration (format_duration (Some 3661)) = Some 3661.
Proof.
  assert (H : 0 < 3661) by lia.
  split; [exact H | exact (format_duration_round_trip 3661 H)].
Defined.

Lemma format_02d_head z :
  exists c rest, format_02d z = c :: rest /\ (c <= 57)%N.
Proof.
  unfold format_02d. destruct (z <? 0).
  - exists 45%N, (zfill 1 (decimal (Z.to_N (- z)))). split; [done | lia].
  - pose proof (zfill_digits 2 (Z.to_N z)) as Hd.
    destruct (zfill 2 (decimal (Z.to_N z))) as [|c rest] eqn:E.
    + unfold zfill in E. apply app_eq_nil in E as [_ E].
      by apply decimal_nonempty in E.
    + apply Forall_cons in Hd as [Hc _]. unfold is_digit_code in Hc.
      exists c, rest. split; [done | lia].
Qed.

(** X2. The duration shows as the "unknown" text exactly when it is
    absent or zero; every other whole number of seconds shows as a
    time. *)
Theorem format_duration_unknown (seconds : option Z) :
  format_duration seconds = unknown_label <->
  seconds = None \/ seconds = Some 0.
Proof.
  split.
  - destruct seconds as [z|]; [|by left]. intros H. right. f_equal.
    unfold format_duration in H.
    destruct (z =? 0) eqn:E0; [by apply Z.eqb_eq in E0|]. exfalso.
    cbv zeta in H.
    destruct (0 <? z / 3600);
      match type of H with format_02d ?x ++ _ = _ =>
        destruct (format_02d_head x) as (c & rest & Hx & Hc) end;
      rewrite Hx in H; unfold unknown_label in H;
      injection H as Hhead _; lia.
  - intros [-> | ->]; reflexivity.
Qed.

(** X3. A negative number of seconds loses its sign and its hours: it
    shows as the time that remains after rounding it down to a whole
    hour. *)
Theorem format_duration_negative (z : Z) :
  z < 0 -> z mod 3600 <> 0 ->
  format_duration (Some z) = format_duration (Some (z mod 3600)).
Proof.
  intros Hneg Hrem. unfold format_duration.
  pose proof (Z.mod_pos_bound z 3600 ltac:(lia)) as Hb.
  destruct (z =? 0) eqn:E0; [apply Z.eqb_eq in E0; lia|].
  destruct (z mod 3600 =? 0) eqn:E1; [by apply Z.eqb_eq in E1|].
  cbv zeta.
  assert (Hh : z / 3600 < 0) by (Z.to_euclidean_division_equations; lia).
  assert (Hh' : z mod 3600 / 3600 = 0) by (apply Z.div_small; lia).
  destruct (0 <? z / 3600) eqn:E2; [apply Z.ltb_lt in E2; lia|].
  rewrite Hh'. simpl (0 <? 0).
  rewrite Z.mod_mod by lia.
  replace (z mod 3600 mod 60) with (z mod 60)
    by (Z.to_euclidean_division_equations; lia).
  reflexivity.
Qed.

Lemma format_duration_negative_witness :
  -1 < 0 /\ (-1) mod 3600 <> 0 /\
  format_duration (Some (-1)) = format_duration (Some 3599).
Proof.
  assert (H1 : -1 < 0) by lia.
  assert (H2 : (-1) mod 3600 <> 0) by (vm_compute; discriminate).
  split; [exact H1|]. split; [exact H2|].
  exact (format_duration_negative (-1) H1 H2).
Defined.

End DisplayFacts.

Section EmojiFacts.

Import Platform Display.
Context {U : Unicode}.

Lemma platform_loop_range items url name :
  platform_loop items url = Some name -> name ∈ items.*2.
Proof.
  induction items as [|[d n] items IH]; simpl; [done|].
  destruct (str_in d (lower url)).
  - intros [= ->]. by left.
  - intros H. right. by apply IH.
Qed.

(** X4. Every label the platform identifier can return is provided for
    by the glyph table: a platform name has an entry of its own there,
    and the generic label, which has none, gets the generic glyph. *)
Theorem platform_label_has_glyph (url : str) :
  (get_platform_name url = other_label /\
   get_platform_emoji (get_platform_name url) = default_emoji)
  \/
  (get_platform_name url ∈ platforms.*2 /\
   emojis !! get_platform_name url
   = Some (get_platform_emoji (get_platform_name url))).
Proof.
  unfold get_platform_name.
  destruct (platform_loop platforms url) as [name|] eqn:E.
  - right. apply platform_loop_range in E. split; [done|].
    vm_compute in E.
    repeat (apply elem_of_cons in E as [-> | E]; [vm_compute; reflexivity|]).
    by apply elem_of_nil in E.
  - left. split; [done | vm_compute; reflexivity].
Qed.

End EmojiFacts.

(* ===================================================================== *)
(** * Serving the file *)
(* ===================================================================== *)

Section DeliveryFacts.

Import Options World Delivery.

Example suffix_examples :
  suffix <$> [py "clip.mp4"; py "a/b.MP4"; py ".mp4"; py "a."; py "a..mp4";
              py "a.b.c"; []; py "."; py ".."; py "a/."; py "a/"; py "/";
              py "//x.mp3"; py "a/.hidden.wav"; py "a.mp4/."; py "...";
              py "..a"; py "a/../b.m4a"]
  = [py ".mp4"; py ".MP4"; []; []; py ".mp4"; py ".c"; []; []; []; []; [];
     []; py ".mp3"; py ".wav"; py ".mp4"; []; py ".a"; py ".m4a"].
Proof. vm_compute. reflexivity. Qed.

Lemma split_on_absent sep (s : str) : sep ∉ s -> Display.split_on sep s = [s].
Proof.
  induction s as [|c s IH]; simpl; [done|].
  intros [Hc Hs]%not_elem_of_cons.
  destruct (c =? sep) eqn:E; [apply N.eqb_eq in E; congruence|].
  by rewrite IH.
Qed.

Lemma split_on_fields sep (s field : str) c :
  field ∈ Display.split_on sep s -> c ∈ field -> c ∈ s.
Proof.
  revert field. induction s as [|x s IH]; simpl; intros field Hf Hc.
  - apply list_elem_of_singleton in Hf. subst. by apply elem_of_nil in Hc.
  - destruct (x =? sep).
    + apply elem_of_cons in Hf as [-> | Hf]; [by apply elem_of_nil in Hc|].
      right. by apply (IH field).
    + destruct (Display.split_on sep s) as [|f fs] eqn:E.
      * apply list_elem_of_singleton in Hf. subst.
        apply list_elem_of_singleton in Hc. subst. by left.
      * apply elem_of_cons in Hf as [-> | Hf].
        -- apply elem_of_cons in Hc as [-> | Hc]; [by left|].
           right. apply (IH f); [by left | done].
        -- right. apply (IH field); [by right | done].
Qed.

Lemma path_name_chars (s : str) c : c ∈ path_name s -> c ∈ s.
Proof.
  unfold path_name.
  destruct (last (List.filter is_component (Display.split_on 47 s)))
    as [name|] eqn:E; simpl; [|by intros ?%elem_of_nil].
  apply last_Some_elem_of in E. apply list_elem_of_In in E.
  apply List.filter_In in E as [E _]. apply list_elem_of_In in E.
  intros Hc. exact (split_on_fields 47 s name c E Hc).
Qed.

Lemma rfind_absent c (s : str) : c ∉ s -> rfind c s = None.
Proof.
  induction s as [|x s IH]; simpl; [done|].
  intros [Hx Hs]%not_elem_of_cons. rewrite IH by done.
  destruct (x =? c) eqn:E; [apply N.eqb_eq in E; congruence | done].
Qed.

Lemma rfind_last c (a e : str) :
  c ∉ e -> rfind c (a ++ c :: e) = Some (length a).
Proof.
  intros He. induction a as [|x a IH]; simpl.
  - by rewrite rfind_absent, N.eqb_refl.
  - by rewrite IH.
Qed.

Lemma suffix_of_name (stem e : str) :
  stem <> [] -> e <> [] -> 47 ∉ stem -> 47 ∉ e -> 46 ∉ e ->
  suffix (stem ++ 46 :: e) = 46 :: e.
Proof.
  intros Hstem He Hs1 Hs2 Hdot. unfold suffix, path_name.
  rewrite split_on_absent.
  2:{ rewrite elem_of_app, elem_of_cons. intros [?|[?|?]]; done. }
  assert (Hcomp : is_component (stem ++ 46 :: e) = true).
  { by destruct stem as [|x [|y stem]]. }
  simpl. rewrite Hcomp. simpl. rewrite rfind_last by done.
  rewrite length_app. simpl.
  destruct stem as [|x stem]; [done|]. destruct e as [|y e]; [done|].
  simpl length.
  replace ((0 <? S (length stem)) &&
           (S (length stem) <? S (length stem) + S (S (length e)) - 1))%nat
    with true.
  - by rewrite drop_app_length' by done.
  - symmetry. apply andb_true_iff. split; apply Nat.ltb_lt; lia.
Qed.

Section WithUnicode.

Context {U : Unicode}.

Lemma lower_from_ascii before (s : str) :
  Forall (fun c => is_ascii c = true) s ->
  lower_from before s = ascii_lower <$> s.
Proof.
  intros Hs. revert before.
  induction Hs as [|c s Hc _ IH]; intros before; simpl; [done|].
  unfold lower_cp. rewrite Hc. simpl. by rewrite IH.
Qed.

Lemma known_suffix_shape k :
  k ∈ known_suffixes ->
  Forall (fun c => c < 128) k /\
  exists e, k = 46 :: e /\ e <> [] /\ (47 ∉ e) /\ (46 ∉ e).
Proof.
  unfold known_suffixes. rewrite !elem_of_cons, elem_of_nil.
  intros [->|[->|[->|[->|[->|[->|[]]]]]]]; unfold py; simpl;
    (split; [repeat (constructor; [lia|]); constructor|]);
    eexists; (split; [reflexivity|]); (split; [discriminate|]);
    split; rewrite !elem_of_cons, elem_of_nil; intros H;
      repeat (destruct H as [H|H]; [discriminate H|]); done.
Qed.

Lemma mime_types_keys k mime : mime_types !! k = Some mime -> k ∈ known_suffixes.
Proof.
  intros H. destruct (decide (k ∈ known_suffixes)) as [|Hnot]; [done|].
  exfalso. unfold mime_types in H. simpl list_to_map in H.
  unfold known_suffixes in Hnot.
  rewrite !lookup_insert_ne in H by (intros <-; apply Hnot; set_solver).
  by rewrite lookup_empty in H.
Qed.

(** X5. A file whose name ends in one of the six known extensions,
    written in any mix of upper and lower case after a non-empty stem,
    is served with the MIME type of that extension. *)
Theorem mime_type_known (stem ext_text mime : str) :
  stem <> [] -> 47 ∉ stem ->
  mime_types !! (ascii_lower <$> ext_text) = Some mime ->
  mime_type_of (stem ++ ext_text) = mime.
Proof.
  intros Hstem Hslash Hmime.
  pose proof (mime_types_keys _ _ Hmime) as Hkey.
  apply known_suffix_shape in Hkey as (Hascii & e' & Hk & He' & Hs' & Hd').
  destruct ext_text as [|d e]; [discriminate Hk|].
  simpl in Hk. injection Hk as Hd He.
  apply ascii_lower_eq_inv in Hd; [|lia]. subst d e'.
  assert (He : e <> []) by (by intros ->).
  assert (Hs : 47 ∉ e).
  { intros Hin. apply Hs'. change 47 with (ascii_lower 47).
    by apply list_elem_of_fmap_2. }
  assert (Hd : 46 ∉ e).
  { intros Hin. apply Hd'. change 46 with (ascii_lower 46).
    by apply list_elem_of_fmap_2. }
  unfold mime_type_of. rewrite suffix_of_name by done.
  unfold lower. rewrite lower_from_ascii.
  - unfold dict_get. exact (f_equal (default default_mime) Hmime).
  - apply Forall_forall. intros c Hc. unfold is_ascii. apply N.ltb_lt.
    rewrite Forall_forall in Hascii.
    assert (Hlow : ascii_lower c < 128).
    { apply Hascii. by apply list_elem_of_fmap_2. }
    unfold ascii_lower in Hlow.
    destruct ((65 <=? c) && (c <=? 90)); lia.
Qed.

(** X6. A file name without any dot has no suffix and is served as
    [application/octet-stream]. *)
Theorem mime_type_without_dot (file_name : str) :
  46 ∉ file_name -> mime_type_of file_name = default_mime.
Proof.
  intros Hdot. unfold mime_type_of, suffix.
  rewrite rfind_absent by (intros Hin; by apply Hdot, path_name_chars).
  reflexivity.
Qed.

End WithUnicode.

End DeliveryFacts.

Section DeliveryRuns.

Import Options World Delivery.

Lemma mime_type_known_witness :
  py "My Clip" <> [] /\ (47 ∉ py "My Clip") /\
  mime_types !! (ascii_lower <$> py ".MP4") = Some (py "video/mp4") /\
  @mime_type_of plain_unicode (py "My Clip" ++ py ".MP4") = py "video/mp4".
Proof.
  assert (H1 : py "My Clip" <> []) by (vm_compute; discriminate).
  assert (H2 : 47 ∉ py "My Clip").
  { intros H. apply list_elem_of_In in H. cbv in H.
    repeat (destruct H as [H|H]; [discriminate H|]). exact H. }
  assert (H3 : mime_types !! (ascii_lower <$> py ".MP4") = Some (py "video/mp4"))
    by (vm_compute; reflexivity).
  split; [exact H1|]. split; [exact H2|]. split; [exact H3|].
  exact (@mime_type_known plain_unicode _ _ _ H1 H2 H3).
Defined.

Lemma mime_type_without_dot_witness :
  (46 ∉ py "download") /\
  @mime_type_of plain_unicode (py "download") = default_mime.
Proof.
  assert (H : 46 ∉ py "download").
  { intros H. apply list_elem_of_In in H. cbv in H.
    repeat (destruct H as [H|H]; [discriminate H|]). exact H. }
  split; [exact H | exact (@mime_type_without_dot plain_unicode _ H)].
Defined.

End DeliveryRuns.

(* ===================================================================== *)
(** * Runs of [main]: what the session state always satisfies *)
(* ===================================================================== *)

Section MainFacts.

Import Options World Orchestrator App Delivery.
Context {U : Unicode} {E : Externals}.

(** X7. The session state of a new session is consistent, and every run
    of [main] keeps it so: whenever file bytes are held a file name is
    held, and whenever a file name is held metadata are held. *)
Theorem main_keeps_session_consistent (inp : inputs) (st : state) :
  session_consistent (Session None None None) /\
  (session_consistent (session st) ->
   session_consistent (session (after inp st))).
Proof.
  split.
  { split; intros [x Hx]; discriminate Hx. }
  intros [Hready Hname]. rewrite after_unfold.
  pose proof (handle_analyze_session inp st) as Han.
  destruct (handle_analyze inp st) as [st1 r]. simpl in Han.
  assert (H1 : session_consistent (session st1)).
  { destruct Han as [-> | (md & _ & ->)]; [done|].
    split; simpl; [by intros [x Hx] | by eauto]. }
  destruct r as [[]|e]; [|done].
  destruct (ss_metadata (session st1)) as [md|] eqn:Hmd; [|done].
  destruct (handle_download_session md inp st1)
    as [-> | (name & data & _ & _ & ->)]; [done|].
  split; simpl; [by eauto | by rewrite Hmd; eauto].
Qed.

(** X8. In a consistent session state, producing the download button
    never fails, and the button is offered exactly when the file bytes
    held are not empty; it then carries those bytes and the file name
    held. *)
Theorem offered_download_in_consistent_session (s : session_state) :
  session_consistent s ->
  exists offer,
    offered_download s = Returns offer /\
    (bytes_truthy (ss_file_ready s) = false -> offer = None) /\
    (bytes_truthy (ss_file_ready s) = true ->
     exists o, offer = Some o /\
               Some (offer_data o) = ss_file_ready s /\
               Some (offer_file_name o) = ss_file_name s).
Proof.
  intros [Hready Hname]. unfold offered_download.
  destruct (bytes_truthy (ss_file_ready s)) eqn:Hb.
  - destruct (ss_file_ready s) as [[|b data]|] eqn:Hr; try discriminate Hb.
    destruct (Hready (ltac:(eauto))) as [name Hn].
    destruct (Hname (ltac:(eauto))) as [md Hm].
    rewrite Hm, Hn. eexists. split; [reflexivity|]. split; [done|].
    intros _. eexists. split; [reflexivity|]. done.
  - destruct (ss_metadata s); eexists; (split; [reflexivity|]);
      (split; [done | discriminate]).
Qed.

Lemma handle_download_success_page md inp st name data :
  download_btn inp = true ->
  snd (download_content (md_url md) (dl_type inp) (extension inp)
         (quality inp) st) = Returns (name, data) ->
  exists shown,
    page (fst (handle_download md inp st)) = shown ++ [SuccessBox msg_file_ready].
Proof.
  intros Hbtn Hok. unfold handle_download. rewrite Hbtn.
  unfold try_except, bind.
  destruct (download_content _ _ _ _ st) as [st1 r].
  simpl in Hok. subst r. simpl. eauto.
Qed.

(** X9. When a download succeeds with a file of zero bytes, the run
    announces that the file is ready, yet no download button is offered:
    empty bytes count as no file. *)
Theorem empty_file_is_announced_but_not_offered
    (inp : inputs) (st : state) (name : str) :
  download_succeeds inp st name [] ->
  (exists shown,
      page (after inp st) = shown ++ [SuccessBox msg_file_ready]) /\
  ss_file_ready (session (after inp st)) = Some [] /\
  offered_download (session (after inp st)) = Returns None.
Proof.
  intros (md & Hret & Hmd & Hbtn & Hdl). rewrite after_unfold.
  destruct (handle_analyze inp st) as [st1 r]. simpl in Hret, Hmd, Hdl.
  subst r. rewrite Hmd.
  split; [by apply (handle_download_success_page md inp st1 name [])|].
  rewrite (handle_download_success md inp st1 name [] Hbtn Hdl).
  split; [done|]. unfold offered_download. simpl. by rewrite Hmd.
Qed.

(** X10. The metadata held change in one way only: a run whose analysis
    succeeds replaces them by the new record; in every other run,
    whatever the download does, they are the same after the run as
    before. *)
Theorem metadata_replaced_only_by_analysis (inp : inputs) (st : state) :
  (forall md, analysis_succeeds inp st md ->
              ss_metadata (session (after inp st)) = Some md) /\
  ((forall md, ~ analysis_succeeds inp st md) ->
   ss_metadata (session (after inp st)) = ss_metadata (session st)).
Proof.
  rewrite after_unfold. split.
  - intros md Hok.
    destruct (handle_analyze_success inp st md Hok) as [Hret Hs1].
    destruct (handle_analyze inp st) as [st1 r]. simpl in Hret, Hs1.
    subst r. rewrite Hs1. cbn [ss_metadata].
    destruct (handle_download_session md inp st1)
      as [-> | (name & data & _ & _ & ->)]; by rewrite Hs1.
  - intros Hno. pose proof (handle_analyze_session inp st) as Han.
    destruct (handle_analyze inp st) as [st1 r]. simpl in Han.
    destruct Han as [Hs1 | (md & Hok & _)]; [|by destruct (Hno md)].
    destruct r as [[]|e]; [|by rewrite Hs1].
    destruct (ss_metadata (session st1)) as [md|] eqn:Hmd; [|by rewrite Hs1].
    destruct (handle_download_session md inp st1)
      as [-> | (name & data & _ & _ & ->)]; [by rewrite Hs1|].
    simpl. by rewrite <- Hs1.
Qed.

(** X11. When the URL does not pass the validator, pressing the analyse
    button shows the invalid-link error and does nothing else: no call
    of the library, no log line, no change of the world or of the
    session state. *)
Theorem invalid_url_makes_no_call (inp : inputs) (st : state) :
  analyze_btn inp = true -> truthy (url_input inp) = true ->
  Validator.validate_url (url_input inp) = false ->
  handle_analyze inp st
  = (State (world st) (session st) (page st ++ [ErrorBox msg_invalid_url])
           (terminal st),
     Returns tt).
Proof.
  intros Hbtn Hurl Hbad. unfold handle_analyze.
  rewrite Hbtn, Hurl, Hbad. reflexivity.
Qed.

End MainFacts.

Section MainRuns.

Import Options World Orchestrator App Delivery.

Lemma main_keeps_session_consistent_witness :
  session_consistent Demo.with_file /\
  session_consistent
    (session (@after plain_unicode
                (Demo.externals [] (Returns tt) (Returns (Some Demo.some_info)))
                Demo.press_analyze
                (@Demo.start
                   (Demo.externals [] (Returns tt) (Returns (Some Demo.some_info)))
                   Demo.empty_world Demo.with_file))).
Proof.
  assert (H : session_consistent
                (session (@Demo.start
                   (Demo.externals [] (Returns tt) (Returns (Some Demo.some_info)))
                   Demo.empty_world Demo.with_file))).
  { split; simpl; eauto. }
  split; [exact H|].
  exact (proj2 (@main_keeps_session_consistent plain_unicode
                  (Demo.externals [] (Returns tt) (Returns (Some Demo.some_info)))
                  Demo.press_analyze _) H).
Defined.

Lemma offered_download_in_consistent_session_witness :
  session_consistent Demo.with_file /\
  exists offer,
    @offered_download plain_unicode Demo.with_file = Returns (Some offer) /\
    offer_mime offer = py "video/mp4".
Proof.
  assert (H : session_consistent Demo.with_file) by (split; simpl; eauto).
  split; [exact H|].
  destruct (@offered_download_in_consistent_session plain_unicode _ H)
    as (offer & Hoffer & _ & _).
  eexists. split; reflexivity.
Defined.

Lemma empty_file_is_announced_but_not_offered_witness :
  let E0 := Demo.externals [(py "clip.mp4", File [])] (Returns tt) (Returns None) in
  let st := @Demo.start E0 Demo.empty_world
              (Session (Some Demo.some_metadata) None None) in
  @download_succeeds plain_unicode E0 Demo.press_download st (py "clip.mp4") [] /\
  @offered_download plain_unicode
    (session (@after plain_unicode E0 Demo.press_download st)) = Returns None.
Proof.
  cbv zeta.
  assert (H : let E0 := Demo.externals [(py "clip.mp4", File [])] (Returns tt)
                          (Returns None) in
              @download_succeeds plain_unicode E0 Demo.press_download
                (@Demo.start E0 Demo.empty_world
                   (Session (Some Demo.some_metadata) None None))
                (py "clip.mp4") []).
  { exists Demo.some_metadata. split; [reflexivity|]. split; [reflexivity|].
    split; [reflexivity|]. vm_compute. reflexivity. }
  split; [exact H|].
  exact (proj2 (proj2 (empty_file_is_announced_but_not_offered _ _ _ H))).
Defined.

Lemma metadata_replaced_only_by_analysis_witness :
  let E0 := Demo.externals [] (Returns tt) (Returns (Some Demo.some_info)) in
  let st := @Demo.start E0 Demo.empty_world Demo.no_session in
  @analysis_succeeds plain_unicode E0 Demo.press_analyze st Demo.some_metadata /\
  ss_metadata (session (@after plain_unicode E0 Demo.press_analyze st))
  = Some Demo.some_metadata.
Proof.
  cbv zeta.
  assert (H : let E0 := Demo.externals [] (Returns tt)
                          (Returns (Some Demo.some_info)) in
              @analysis_succeeds plain_unicode E0 Demo.press_analyze
                (@Demo.start E0 Demo.empty_world Demo.no_session)
                Demo.some_metadata).
  { unfold analysis_succeeds. split; [reflexivity|]. split; [reflexivity|].
    split; vm_compute; reflexivity. }
  split; [exact H|].
  exact (proj1 (metadata_replaced_only_by_analysis _ _) _ H).
Defined.

Lemma invalid_url_makes_no_call_witness :
  let E0 := Demo.externals [] (Returns tt) (Raises Demo.interrupt) in
  let inp := Inputs (py "not-a-url") true [] [] [] false in
  @Validator.validate_url plain_unicode (url_input inp) = false /\
  fst (@handle_analyze plain_unicode E0 inp
         (@Demo.start E0 Demo.empty_world Demo.no_session))
  = State Demo.empty_world Demo.no_session [ErrorBox msg_invalid_url] [].
Proof.
  cbv zeta.
  assert (H : @Validator.validate_url plain_unicode (py "not-a-url") = false)
    by reflexivity.
  split; [exact H|].
  exact (f_equal fst
           (@invalid_url_makes_no_call plain_unicode
              (Demo.externals [] (Returns tt) (Raises Demo.interrupt))
              (Inputs (py "not-a-url") true [] [] [] false)
              (@Demo.start
                 (Demo.externals [] (Returns tt) (Raises Demo.interrupt))
                 Demo.empty_world Demo.no_session)
              eq_refl eq_refl H)).
Defined.

End MainRuns.

(* ===================================================================== *)
(** * More on the URL validator *)
(* ===================================================================== *)

Section ClassFacts.

Import Regex RegexClasses.

Lemma classes_respect_seq' f a b :
  classes_respect f a -> classes_respect f b -> classes_respect f (seq' a b).
Proof. intros Ha Hb. destruct a; simpl; try done; destruct b; simpl; done. Qed.

Lemma classes_respect_alt' f a b :
  classes_respect f a -> classes_respect f b -> classes_respect f (alt' a b).
Proof. intros Ha Hb. destruct a; simpl; try done; destruct b; simpl; done. Qed.

Lemma classes_respect_deriv f c r :
  classes_respect f r -> classes_respect f (deriv c r).
Proof.
  induction r as [| |p|a IHa b IHb|a IHa b IHb|a IHa]; simpl; try done.
  - intros _. by destruct (p c).
  - intros [Ha Hb]. apply classes_respect_alt'.
    + apply classes_respect_seq'; [by apply IHa | done].
    + destruct (nullable a); [by apply IHb | done].
  - intros [Ha Hb]. apply classes_respect_alt'; [by apply IHa | by apply IHb].
  - intros Ha. apply classes_respect_seq'; [by apply IHa | done].
Qed.

Lemma classes_respect_deriv_eq f c r :
  classes_respect f r -> deriv (f c) r = deriv c r.
Proof.
  induction r as [| |p|a IHa b IHb|a IHa b IHb|a IHa]; simpl; try done.
  - intros Hp. by rewrite Hp.
  - intros [Ha Hb]. by rewrite IHa, IHb.
  - intros [Ha Hb]. by rewrite IHa, IHb.
  - intros Ha. by rewrite IHa.
Qed.

(** A pattern whose classes do not tell [c] from [f c] does not tell a
    string from its image under [f]. *)
Lemma matches_fmap f r (s : str) :
  classes_respect f r -> matches r (f <$> s) = matches r s.
Proof.
  revert r. induction s as [|c s IH]; intros r Hr; simpl; [done|].
  rewrite classes_respect_deriv_eq by done.
  apply IH. by apply classes_respect_deriv.
Qed.

Lemma lang_within P r (s : str) :
  classes_within P r -> lang r s -> Forall P s.
Proof.
  intros Hr Hl. induction Hl; simpl in Hr; try done.
  - constructor; [by apply Hr | constructor].
  - destruct Hr as [Ha Hb]. apply Forall_app. split; auto.
  - destruct Hr as [Ha Hb]. auto.
  - destruct Hr as [Ha Hb]. auto.
  - apply Forall_app. split; auto.
Qed.

(** What holds of each capital letter holds of every code point from 65
    to 90. *)
Lemma capitals_enum (b : N -> bool) :
  forallb b capitals = true -> forall x, 65 <= x <= 90 -> b x = true.
Proof.
  intros Hall x Hx. rewrite forallb_forall in Hall. apply Hall.
  apply list_elem_of_In. unfold capitals.
  replace x with (N.of_nat (N.to_nat x)) by apply N2Nat.id.
  apply list_elem_of_fmap_2. apply elem_of_seq. lia.
Qed.

End ClassFacts.

Section ValidatorCase.

Import Regex RegexClasses Validator.
Context {U : Unicode}.

(** A class that answers alike on each capital letter and its small
    letter answers alike on [c] and [ascii_lower c] for every [c]. *)
Lemma respects_lower (p : N -> bool) :
  forallb (fun x => Bool.eqb (p (ascii_lower x)) (p x)) capitals = true ->
  forall c, p (ascii_lower c) = p c.
Proof.
  intros Hall c. unfold ascii_lower at 1.
  destruct ((65 <=? c) && (c <=? 90)) eqn:E; [|done].
  apply andb_true_iff in E as [E1%N.leb_le E2%N.leb_le].
  pose proof (capitals_enum _ Hall c (conj E1 E2)) as H.
  apply Bool.eqb_prop in H. rewrite <- H. unfold ascii_lower.
  by rewrite (proj2 (N.leb_le _ _) E1), (proj2 (N.leb_le _ _) E2).
Qed.

Ltac class_leaf := apply respects_lower; vm_compute; reflexivity.

Lemma url_pattern_respects : classes_respect ascii_lower url_pattern.
Proof.
  unfold url_pattern, after_scheme, host, domain_name, domain_label, ipv4,
    port, path, dollar, Opt, Plus.
  cbv zeta. simpl classes_respect. repeat split; class_leaf.
Qed.

Lemma is_space_lower c : is_space (ascii_lower c) = is_space c.
Proof. revert c. class_leaf. Qed.

Lemma lstrip_fmap_lower (s : str) :
  lstrip (ascii_lower <$> s) = ascii_lower <$> lstrip s.
Proof.
  induction s as [|c s IH]; simpl; [done|].
  rewrite is_space_lower. by destruct (is_space c).
Qed.

Lemma fmap_rev (f : N -> N) (s : str) : f <$> rev s = rev (f <$> s).
Proof.
  induction s as [|c s IH]; simpl; [done|]. by rewrite fmap_app, IH.
Qed.

Lemma strip_fmap_lower (s : str) :
  strip (ascii_lower <$> s) = ascii_lower <$> strip s.
Proof.
  unfold strip, rstrip.
  by rewrite lstrip_fmap_lower, <- fmap_rev, lstrip_fmap_lower, fmap_rev.
Qed.

Lemma validate_url_lower (url : str) :
  validate_url (ascii_lower <$> url) = validate_url url.
Proof.
  unfold validate_url. rewrite strip_fmap_lower.
  rewrite (matches_fmap _ _ _ url_pattern_respects).
  assert (Ht : forall s : str, truthy (ascii_lower <$> s) = truthy s)
    by (by intros []).
  by rewrite !Ht.
Qed.

(** X12. The validator does not look at the case of ASCII letters,
    anywhere in the string: two strings that differ only in the case of
    their ASCII letters are both accepted or both rejected. *)
Theorem validate_url_ignores_case (a b : str) :
  ascii_lower <$> a = ascii_lower <$> b -> validate_url a = validate_url b.
Proof.
  intros Hab. by rewrite <- (validate_url_lower a), Hab, validate_url_lower.
Qed.

End ValidatorCase.

Section ValidatorSpace.

Import Regex RegexClasses Validator.
Context {U : Unicode}.

(** ** White space around the URL *)

Lemma lstrip_blank_app (ws s : str) : blank ws -> lstrip (ws ++ s) = lstrip s.
Proof. induction 1 as [|c ws Hc _ IH]; simpl; [done | by rewrite Hc]. Qed.

Lemma lstrip_app (s t : str) : lstrip s <> [] -> lstrip (s ++ t) = lstrip s ++ t.
Proof.
  induction s as [|c s IH]; simpl; [done|].
  destruct (is_space c); [exact IH | done].
Qed.

Lemma lstrip_nil_blank (s : str) : lstrip s = [] -> blank s.
Proof.
  induction s as [|c s IH]; simpl; [intros _; constructor|].
  destruct (is_space c) eqn:E; [|done]. intros H.
  apply Forall_cons. split; [exact E | exact (IH H)].
Qed.

Lemma blank_rev (s : str) : blank s -> blank (rev s).
Proof.
  induction 1 as [|c s Hc _ IH]; simpl; [constructor|].
  apply Forall_app. split; [done | by repeat constructor].
Qed.

Lemma rstrip_app_blank (s ws : str) : blank ws -> rstrip (s ++ ws) = rstrip s.
Proof.
  intros Hws. unfold rstrip. rewrite rev_app_distr.
  by rewrite lstrip_blank_app by by apply blank_rev.
Qed.

Lemma strip_surrounded (before s after : str) :
  blank before -> blank after -> strip (before ++ s ++ after) = strip s.
Proof.
  intros Hb Ha. unfold strip. rewrite lstrip_blank_app by done.
  destruct (lstrip s) as [|c rest] eqn:E.
  - apply lstrip_nil_blank in E.
    rewrite (lstrip_blank (s ++ after)); [done|].
    apply Forall_app. by split.
  - rewrite lstrip_app by (by rewrite E). rewrite E.
    by apply rstrip_app_blank.
Qed.

Lemma validate_url_by_strip (url : str) :
  validate_url url
  = if truthy (strip url) then matches url_pattern (strip url) else false.
Proof.
  unfold validate_url. destruct url as [|c url]; [reflexivity|].
  simpl truthy. by destruct (truthy (strip (c :: url))).
Qed.

(** X13. White space before and after the URL does not count: the
    validator gives the same answer with and without it. *)
Theorem validate_url_ignores_surrounding_space (before url after : str) :
  blank before -> blank after ->
  validate_url (before ++ url ++ after) = validate_url url.
Proof.
  intros Hb Ha. rewrite !validate_url_by_strip.
  by rewrite strip_surrounded.
Qed.

(** ** No white space inside an accepted URL *)

Lemma is_space_enum c : is_space c = true -> c ∈ white_space.
Proof.
  unfold is_space. rewrite !orb_true_iff, !andb_true_iff, !N.leb_le, !N.eqb_eq.
  intros H.
  assert (Hc : Exists (eq c) white_space).
  { unfold white_space. rewrite !Exists_cons, Exists_nil. lia. }
  apply Exists_exists in Hc as (x & Hx & ->). done.
Qed.

(** A class that rejects each white-space code point matches none. *)
Lemma no_space_class (p : N -> bool) :
  forallb (fun x => negb (p x)) white_space = true ->
  forall c, p c = true -> is_space c = false.
Proof.
  intros Hall c Hp. destruct (is_space c) eqn:Es; [|done].
  apply is_space_enum in Es. rewrite forallb_forall in Hall.
  apply list_elem_of_In, Hall in Es. by rewrite Hp in Es.
Qed.

Lemma non_space_class c : non_space c = true -> is_space c = false.
Proof. unfold non_space. by intros ?%negb_true_iff. Qed.

Section WithDigits.

(** No white-space code point is a decimal digit in the Unicode
    database. *)
Hypothesis digits_are_not_spaces :
  forall c, is_space c = true -> unicode_decimal c = false.

Lemma digit_class c : digit c = true -> is_space c = false.
Proof.
  unfold digit. destruct (is_ascii c) eqn:Ea.
  - revert c Ea. intros c _. revert c.
    apply no_space_class. vm_compute. reflexivity.
  - intros Hd. destruct (is_space c) eqn:Es; [|done].
    by rewrite digits_are_not_spaces in Hd.
Qed.

Ltac space_leaf :=
  first [ exact digit_class
        | exact non_space_class
        | apply no_space_class; vm_compute; reflexivity ].

Lemma after_scheme_body_space_free :
  classes_within (fun c => is_space c = false) (Seq host (Seq port path)).
Proof.
  unfold host, domain_name, domain_label, ipv4, port, path, Opt, Plus.
  cbv zeta. simpl classes_within. repeat split; space_leaf.
Qed.

Lemma lang_word_space_free w tail (s : str) :
  Forall (fun c => forall x, lit_i c x = true -> is_space x = false) w ->
  lang (word lit_i w tail) s ->
  exists a rest, s = a ++ rest /\ space_free a /\ lang tail rest.
Proof.
  intros Hw H. apply lang_word_inv in H as (a & rest & -> & Hci & Htail).
  exists a, rest. split; [done|]. split; [|done].
  clear Htail. induction Hci as [|c x w a Hcx _ IH]; [constructor|].
  apply Forall_cons in Hw as [Hc Hw]. constructor; [by apply Hc | by apply IH].
Qed.

Lemma lstrip_head (s : str) c rest : lstrip s = c :: rest -> is_space c = false.
Proof.
  induction s as [|x s IH]; simpl; [done|].
  destruct (is_space x) eqn:E; [exact IH|]. by intros [= <- _].
Qed.

Lemma strip_last (s body : str) c : strip s = body ++ [c] -> is_space c = false.
Proof.
  unfold strip, rstrip. intros H.
  apply (f_equal (@rev N)) in H. rewrite rev_involutive, rev_unit in H.
  by apply lstrip_head in H.
Qed.

(** X14. An accepted URL, once stripped, contains no white space: a
    link with a space, a tab or a line break inside is rejected. *)
Theorem accepted_url_has_no_space (url : str) :
  validate_url url = true -> space_free (strip url).
Proof.
  rewrite validate_url_by_strip.
  destruct (truthy (strip url)); [|done].
  intros H%matches_spec. unfold url_pattern in H.
  apply lang_word_space_free in H as (a1 & r1 & E1 & H1 & H).
  2:{ repeat constructor; apply no_space_class; vm_compute; reflexivity. }
  apply lang_seq_inv in H as (o & r2 & -> & Ho & H).
  apply lang_word_space_free in H as (a2 & r3 & -> & H2 & H).
  2:{ repeat constructor; apply no_space_class; vm_compute; reflexivity. }
  unfold after_scheme in H.
  apply lang_seq_inv in H as (h & r4 & -> & Hh & H).
  apply lang_seq_inv in H as (p & r5 & -> & Hp & H).
  apply lang_seq_inv in H as (pa & d & -> & Hpa & Hd).
  assert (Hbody : space_free (a1 ++ o ++ a2 ++ h ++ p ++ pa)).
  { assert (Ho' : space_free o).
    { apply lang_opt_inv in Ho as [(s & -> & Hs)%lang_cls_inv | ->];
        [|constructor].
      constructor; [|constructor].
      apply (no_space_class (lit_i 115)); [vm_compute; reflexivity | exact Hs]. }
    assert (Hrest : space_free (h ++ p ++ pa)).
    { apply (lang_within _ (Seq host (Seq port path)));
        [exact after_scheme_body_space_free|].
      apply lang_seq; [done|]. by apply lang_seq. }
    unfold space_free in *. rewrite !Forall_app in *. tauto. }
  apply lang_opt_inv in Hd as [(c & -> & Hc)%lang_cls_inv | ->].
  - exfalso. apply N.eqb_eq in Hc. subst c.
    assert (Hlast : is_space 10 = false); [|discriminate Hlast].
    apply (strip_last url (a1 ++ o ++ a2 ++ h ++ p ++ pa)).
    rewrite E1. by rewrite <- !app_assoc.
  - rewrite E1. rewrite !app_nil_r.
    unfold space_free in *. rewrite !Forall_app in *. tauto.
Qed.

End WithDigits.

End ValidatorSpace.

Section ValidatorRuns.

Import Validator RegexClasses.

Lemma validate_url_ignores_case_witness :
  ascii_lower <$> py "HTTPS://Example.COM/x" = ascii_lower <$> py "https://example.com/X" /\
  @validate_url plain_unicode (py "HTTPS://Example.COM/x")
  = @validate_url plain_unicode (py "https://example.com/X").
Proof.
  assert (H : ascii_lower <$> py "HTTPS://Example.COM/x"
              = ascii_lower <$> py "https://example.com/X") by reflexivity.
  split; [exact H | exact (@validate_url_ignores_case plain_unicode _ _ H)].
Defined.

Lemma validate_url_ignores_surrounding_space_witness :
  blank (py "  ") /\ blank [10; 9] /\
  @validate_url plain_unicode (py "  " ++ py "https://example.com/x" ++ [10; 9])
  = @validate_url plain_unicode (py "https://example.com/x").
Proof.
  assert (H1 : blank (py "  ")) by (by repeat constructor).
  assert (H2 : blank [10; 9]) by (by repeat constructor).
  split; [exact H1|]. split; [exact H2|].
  exact (@validate_url_ignores_surrounding_space plain_unicode _ _ _ H1 H2).
Defined.

Lemma accepted_url_has_no_space_witness :
  (forall c, is_space c = true -> @unicode_decimal plain_unicode c = false) /\
  @validate_url plain_unicode (py " https://example.com/a?b=1 ") = true /\
  space_free (strip (py " https://example.com/a?b=1 ")).
Proof.
  assert (H1 : forall c, is_space c = true -> @unicode_decimal plain_unicode c = false)
    by reflexivity.
  assert (H2 : @validate_url plain_unicode (py " https://example.com/a?b=1 ") = true)
    by (vm_compute; reflexivity).
  split; [exact H1|]. split; [exact H2|].
  exact (@accepted_url_has_no_space plain_unicode H1 _ H2).
Defined.

Lemma validate_url_rejects_without_scheme_witness :
  (383 ∉ py "ftp://example.com/file") /\
  ~ contains_http_scheme (py "ftp://example.com/file") /\
  @validate_url plain_unicode (py "ftp://example.com/file") = false.
Proof.
  assert (H1 : 383 ∉ py "ftp://example.com/file").
  { intros H. apply list_elem_of_In in H. cbv in H.
    repeat (destruct H as [H|H]; [discriminate H|]). exact H. }
  assert (H2 : ~ contains_http_scheme (py "ftp://example.com/file")).
  { unfold contains_http_scheme.
    intros [H | H]; apply str_in_spec in H; vm_compute in H; discriminate H. }
  split; [exact H1|]. split; [exact H2|].
  exact (@validate_url_rejects_without_scheme plain_unicode _ H1 H2).
Defined.

End ValidatorRuns.

(* ===================================================================== *)
(** * More on the option builder *)
(* ===================================================================== *)

Section OptionPartsFacts.

Import Options OptionParts.

Ltac key_ne := let H := fresh in intros H; vm_compute in H; discriminate H.

Ltac lookup_opts :=
  repeat first
    [ rewrite lookup_insert_eq
    | rewrite lookup_insert_ne by key_ne
    | rewrite lookup_empty ].

(** X15. For a video request the merge container is always the
    requested extension, known or not, and the conversion step is
    attached for mp4 only: every other extension gets no post-processing
    step at all. *)
Theorem video_container_follows_extension (temp_dir extension quality : str) :
  let opts := build_ydl_options temp_dir (py "video") extension quality in
  opts !! py "merge_output_format" = Some (PStr extension) /\
  opts !! py "postprocessors"
  = (if decide (extension = py "mp4") then Some video_convertor else None).
Proof.
  cbv zeta. unfold build_ydl_options. rewrite !decide_True by done.
  simpl list_to_map.
  repeat case_decide; subst; split; lookup_opts; try reflexivity;
    match goal with H : py _ = py _ |- _ => vm_compute in H; discriminate H end.
Qed.

(** X16. The output template, the verbosity flags, the overwrite
    argument and the HTTP headers depend on the scratch directory only:
    they are the same for every type, extension and quality. *)
Theorem common_options_do_not_depend_on_request
    (temp_dir type1 ext1 quality1 type2 ext2 quality2 key : str) :
  key ∈ common_keys ->
  build_ydl_options temp_dir type1 ext1 quality1 !! key
  = build_ydl_options temp_dir type2 ext2 quality2 !! key.
Proof.
  unfold common_keys. rewrite !elem_of_cons, elem_of_nil.
  intros [->|[->|[->|[->|[->|[]]]]]];
    unfold build_ydl_options; simpl list_to_map;
    repeat case_decide; lookup_opts; reflexivity.
Qed.

Lemma common_options_do_not_depend_on_request_witness :
  py "http_headers" ∈ common_keys /\
  build_ydl_options (py "/tmp/t") (py "video") (py "mkv") (py "720p")
    !! py "http_headers"
  = build_ydl_options (py "/tmp/t") (py "audio") (py "wav") (py "128kbps")
    !! py "http_headers".
Proof.
  assert (H : py "http_headers" ∈ common_keys).
  { unfold common_keys. rewrite !elem_of_cons. do 4 right. by left. }
  split; [exact H|].
  exact (common_options_do_not_depend_on_request _ _ _ _ _ _ _ _ H).
Defined.

(** X17. The output template of every request names a file directly
    inside the scratch directory: for a non-empty directory path it is
    exactly that path, then a ['/'] unless the path already ends with
    one, then the fixed file name template. *)
Theorem output_template_in_scratch_directory
    (temp_dir download_type extension quality : str) :
  temp_dir <> [] ->
  build_ydl_options temp_dir download_type extension quality !! py "outtmpl"
  = Some (PStr (temp_dir
                ++ (if ends_with_sep temp_dir then [] else py "/")
                ++ output_template)).
Proof.
  intros Hdir.
  assert (Hjoin :
    path_join temp_dir output_template
    = temp_dir ++ (if ends_with_sep temp_dir then [] else py "/")
      ++ output_template).
  { unfold path_join. change (starts_with (py "/") output_template) with false.
    cbv iota. destruct temp_dir as [|c rest]; [done|]. simpl truthy. simpl negb.
    simpl orb. destruct (ends_with_sep (c :: rest)); reflexivity. }
  rewrite <- Hjoin. unfold build_ydl_options. simpl list_to_map.
  repeat case_decide; lookup_opts; reflexivity.
Qed.

Lemma output_template_in_scratch_directory_witness :
  py "/tmp/tmpab12" <> [] /\
  build_ydl_options (py "/tmp/tmpab12") (py "audio") (py "mp3") (py "best")
    !! py "outtmpl"
  = Some (PStr (py "/tmp/tmpab12/%(title)s.%(ext)s")).
Proof.
  assert (H : py "/tmp/tmpab12" <> []) by (vm_compute; discriminate).
  split; [exact H|].
  exact (output_template_in_scratch_directory (py "/tmp/tmpab12")
           (py "audio") (py "mp3") (py "best") H).
Defined.

End OptionPartsFacts.

Section HeaderFacts.

Import Options OptionParts World Orchestrator.
Context {U : Unicode} {E : Externals}.

(** X18. Every HTTP header sent with a download is sent, with the same
    value, with the metadata extraction as well; the extraction adds a
    referer. *)
Theorem download_headers_shared_with_extraction
    (temp_dir download_type extension quality : str) :
  nested_entries metadata_ydl_opts (py "http_headers")
  = nested_entries
      (build_ydl_options temp_dir download_type extension quality)
      (py "http_headers")
    ++ [(py "Referer", PStr (py "https://www.google.com/"))].
Proof.
  unfold nested_entries, metadata_ydl_opts, build_ydl_options.
  simpl list_to_map.
  repeat case_decide;
    repeat first
      [ rewrite lookup_insert_eq
      | rewrite lookup_insert_ne
          by (let H := fresh in intros H; vm_compute in H; discriminate H) ];
    reflexivity.
Qed.

End HeaderFacts.

(* ===================================================================== *)
(** * More on the orchestrator and the extractor *)
(* ===================================================================== *)

Section ReprFacts.

Import Options World Orchestrator.
Context {U : Unicode}.

Lemma repr_quote_plain (s : str) : repr_plain s -> repr_quote s = 39.
Proof.
  intros Hs. unfold repr_quote.
  assert (Hno : existsb (N.eqb 39) s = false).
  { induction Hs as [|c rest (_ & _ & Hq & _) _ IH]; [reflexivity|].
    cbn [existsb]. rewrite IH. by destruct (N.eqb_spec 39 c) as [<-|]. }
  by rewrite Hno.
Qed.

Lemma repr_cp_plain (c : N) :
  32 <= c -> c < 127 -> c <> 39 -> c <> 92 -> repr_cp 39 c = [c].
Proof.
  intros Hlo Hhi Hq Hb. unfold repr_cp.
  destruct (N.eqb_spec c 39); [done|]. destruct (N.eqb_spec c 92); [done|].
  destruct (N.eqb_spec c 9); [lia|]. destruct (N.eqb_spec c 10); [lia|].
  destruct (N.eqb_spec c 13); [lia|]. destruct (N.ltb_spec c 32); [lia|].
  destruct (N.eqb_spec c 127); [lia|]. destruct (N.ltb_spec c 127); [|lia].
  reflexivity.
Qed.

(** Around printable ASCII without a single quote or a backslash,
    [repr] only puts single quotes. *)
Lemma py_repr_plain (s : str) : repr_plain s -> py_repr s = py "'" ++ s ++ py "'".
Proof.
  intros Hs. unfold py_repr. rewrite (repr_quote_plain s Hs). cbv zeta.
  assert (Hbody : flat_map (repr_cp 39) s = s).
  { induction Hs as [|c rest (Hlo & Hhi & Hq & Hb) _ IH]; [reflexivity|].
    cbn [flat_map]. rewrite IH, repr_cp_plain by done. reflexivity. }
  rewrite Hbody. reflexivity.
Qed.

(** A single quote in the text changes the enclosing quotes; with both
    kinds the single quote is escaped; a backslash is doubled and a tab
    written as an escape. *)
Example py_repr_single_quote :
  py_repr (py "/tmp/x/it's") = dquote ++ py "/tmp/x/it's" ++ dquote.
Proof. vm_compute. reflexivity. Qed.

Example py_repr_both_quotes :
  py_repr (py "it's" ++ dquote ++ py "x")
  = py "'it\'s" ++ dquote ++ py "x'".
Proof. vm_compute. reflexivity. Qed.

Example py_repr_backslash_and_tab :
  py_repr (py "back\slash" ++ [9] ++ py "tab") = py "'back\\slash\ttab'".
Proof. vm_compute. reflexivity. Qed.

(** A code point outside ASCII is escaped when the database says it is
    not printable (the no-break space, a lone surrogate, a private or
    unassigned code point of the upper planes), and kept otherwise. *)
Example py_repr_not_printable :
  unicode_printable 160 = false -> unicode_printable 56448 = false ->
  unicode_printable 1114109 = false -> unicode_printable 233 = true ->
  py_repr [160; 56448; 1114109; 233]
  = py "'\xa0\udc80\U0010fffd" ++ [233] ++ py "'".
Proof.
  intros H1 H2 H3 H4. unfold py_repr, repr_quote.
  change (existsb (N.eqb 39) [160; 56448; 1114109; 233]) with false.
  cbv beta iota zeta. change (false && _) with false. cbv iota.
  unfold flat_map, repr_cp.
  rewrite H1, H2, H3, H4. vm_compute. reflexivity.
Qed.

(** The path of an entry: separators of the directory are not doubled,
    ['.'] components and a final separator are dropped, two leading
    slashes are kept and three are one. *)
Example child_path_of_scratch :
  child_path (py "/tmp/tmpab12") (py "parts") = py "/tmp/tmpab12/parts".
Proof. vm_compute. reflexivity. Qed.

Example child_path_normalises :
  child_path (py "/tmp//x/./") (py "a") = py "/tmp/x/a" /\
  child_path (py "//tmp") (py "a") = py "//tmp/a" /\
  child_path (py "///tmp") (py "a") = py "/tmp/a" /\
  child_path (py "/") (py "a") = py "/a" /\
  child_path (py "rel/dir") (py "a") = py "rel/dir/a" /\
  child_path [] (py "a") = py "a".
Proof. vm_compute. done. Qed.

End ReprFacts.

Section OrchestratorMore.

Import Options World Orchestrator App.
Context {U : Unicode} {E : Externals}.

Ltac log_step :=
  match goal with
  | |- context [log_to_console ?m ?l ?s] =>
      let pg := fresh "pg" in
      let tm := fresh "tm" in
      destruct (log_to_console_spec m l s) as (pg & tm & ->)
  end.

(** X19. Apart from what the fetch itself does, a call of
    [download_content] changes nothing in the world but the scratch
    directory: whatever the outcome, the world after the call is the
    world the fetch left, with the scratch directory removed. *)
Theorem download_content_touches_only_scratch
    (url download_type extension quality : str) (st : state)
    (fetched : env outside) (r : outcome unit) :
  fetch_of_call url download_type extension quality st = (fetched, r) ->
  world (fst (download_content url download_type extension quality st))
  = set_fs (delete (scratch_dir st)) fetched.
Proof.
  unfold fetch_of_call, scratch_dir. intros Hfetch.
  unfold download_content, bind. log_step.
  unfold with_temporary_directory, try_except, bind, external.
  cbn [world session page terminal]. rewrite Hfetch.
  destruct r as [[]|e].
  - unfold glob_star, bind, get_world, ret.
    cbn [world session page terminal].
    destruct (listing fetched (mkdtemp (world st))) as [|[name node] others].
    + cbn [raise Exception exn_is_exception]. log_step. reflexivity.
    + log_step. unfold read_file, bind, get_world, ret, raise.
      cbn [world session page terminal].
      destruct (fs fetched !! mkdtemp (world st)) as [entries|];
        [destruct (find_entry name entries) as [[data|sub]|]|];
        cbn [Exception exn_is_exception]; try log_step; reflexivity.
  - destruct (exn_is_exception e); [log_step|]; reflexivity.
Qed.

(** X20. When the fetch completes without raising and the first entry
    of the scratch directory, in enumeration order, is a directory,
    [download_content] raises the error with which [open] refuses a
    directory, also when files follow in the enumeration: its text is
    the error number 21 with its message and [repr] of the path of the
    entry as [pathlib] writes it. *)
Theorem download_content_first_entry_directory
    (url download_type extension quality : str) (st : state)
    (fetched : env outside) (name : str)
    (inside others : list (str * node)) :
  fetch_of_call url download_type extension quality st = (fetched, Returns tt) ->
  listing fetched (scratch_dir st) = (name, Dir inside) :: others ->
  snd (download_content url download_type extension quality st)
  = Raises (Exception (py "[Errno 21] Is a directory: "
                       ++ py_repr (child_path (scratch_dir st) name))).
Proof.
  unfold fetch_of_call, scratch_dir. intros Hfetch Hfiles.
  unfold download_content, bind. log_step.
  unfold with_temporary_directory, try_except, bind, external.
  cbn [world session page terminal].
  rewrite Hfetch. unfold glob_star, bind, get_world, ret.
  cbn [world session page terminal].
  rewrite Hfiles. log_step.
  unfold read_file, bind, get_world, ret, raise.
  cbn [world session page terminal].
  unfold listing in Hfiles.
  destruct (fs fetched !! mkdtemp (world st)) as [entries|] eqn:Hdir;
    simpl in Hfiles; [|discriminate].
  subst entries. rewrite find_entry_head.
  cbn [Exception exn_is_exception]. log_step. reflexivity.
Qed.

(** What one call of [log_to_console] adds, at the default level and
    at the error level. *)
Lemma log_to_console_info (message : str) (st : state) :
  log_to_console message (py "info") st
  = (State (world st) (session st)
       (page st ++ [Markdown (py "<script>console.log(" ++ dquote
                              ++ (py "[" ++ now_hms (world st) ++ py "] " ++ message)
                              ++ dquote ++ py ")</script>")])
       (terminal st ++ [(py "info", message)]),
     Returns tt).
Proof.
  unfold log_to_console, bind, get_world, logger, show.
  rewrite !decide_False
    by (let H := fresh in intros H; vm_compute in H; discriminate H).
  reflexivity.
Qed.

Lemma log_to_console_error (message : str) (st : state) :
  log_to_console message (py "error") st
  = (State (world st) (session st)
       (page st ++ [Markdown (py "<script>console.error(" ++ dquote
                              ++ (py "[" ++ now_hms (world st) ++ py "] " ++ message)
                              ++ dquote ++ py ")</script>")])
       (terminal st ++ [(py "error", message)]),
     Returns tt).
Proof.
  unfold log_to_console, bind, get_world, logger, show.
  rewrite decide_True by reflexivity. reflexivity.
Qed.

(** X27. When the library's inspection raises an [Exception],
    [extract_metadata] logs the error and raises that same exception: the
    outcome is the exception, not an empty result; the terminal gets,
    after the line that announces the extraction, the line
    "Error extracting metadata: " followed by the text of the
    exception, at the error level; the page gets the two matching
    console scripts; the world is as the library left it and the session
    state is untouched. *)
Theorem extract_metadata_logs_and_reraises
    (url : str) (st : state) (w : env outside) (e : exn) :
  ydl_extract_info metadata_ydl_opts url (world st) = (w, Raises e) ->
  exn_is_exception e = true ->
  extract_metadata url st
  = (State w (session st)
       (page st
        ++ [ Markdown (py "<script>console.log(" ++ dquote
                       ++ (py "[" ++ now_hms (world st) ++ py "] "
                           ++ (py "Extracting metadata from: " ++ url))
                       ++ dquote ++ py ")</script>");
             Markdown (py "<script>console.error(" ++ dquote
                       ++ (py "[" ++ now_hms w ++ py "] "
                           ++ (py "Error extracting metadata: " ++ exn_text e))
                       ++ dquote ++ py ")</script>") ])
       (terminal st
        ++ [ (py "info", py "Extracting metadata from: " ++ url);
             (py "error", py "Error extracting metadata: " ++ exn_text e) ]),
     Raises e).
Proof.
  intros Hcall Hexc. unfold extract_metadata, bind at 1.
  rewrite log_to_console_info.
  unfold try_except, bind, external. cbn [world session page terminal].
  rewrite Hcall, Hexc. rewrite log_to_console_error.
  cbn [world session page terminal]. unfold raise.
  rewrite <- !app_assoc. reflexivity.
Qed.

(** X21. When the library returns no record, or an empty one, without
    raising, the analysis shows the "cannot analyse" error and leaves the
    session state as it was. *)
Theorem empty_result_is_reported
    (inp : inputs) (st : state) (w : env outside)
    (info : option (gmap str pyval)) :
  analyze_btn inp = true -> truthy (url_input inp) = true ->
  Validator.validate_url (url_input inp) = true ->
  ydl_extract_info metadata_ydl_opts (url_input inp) (world st)
  = (w, Returns info) ->
  info_truthy info = false ->
  snd (extract_metadata (url_input inp) st) = Returns None /\
  snd (handle_analyze inp st) = Returns tt /\
  session (fst (handle_analyze inp st)) = session st /\
  exists shown,
    page (fst (handle_analyze inp st)) = shown ++ [ErrorBox msg_cannot_analyze].
Proof.
  intros Hbtn Hurl Hvalid Hcall Hempty.
  assert (Hex : exists st1,
             extract_metadata (url_input inp) st = (st1, Returns None) /\
             session st1 = session st).
  { unfold extract_metadata, bind at 1. log_step.
    unfold try_except, bind, external. cbn [world session page terminal].
    rewrite Hcall. destruct info as [d|]; [rewrite Hempty|];
      eexists; (split; [reflexivity | reflexivity]). }
  destruct Hex as (st1 & Hex & Hs1).
  split; [by rewrite Hex|].
  unfold handle_analyze. rewrite Hbtn, Hurl, Hvalid. simpl.
  unfold try_except, bind. rewrite Hex. simpl. eauto.
Qed.

(** X22. When the library returns a record that has none of the six
    fields read from it, the metadata are made of the defaults: title and
    uploader 'Unknown', duration and view count 0, empty thumbnail, no
    formats; the URL is the one analysed and the platform the one
    identified from it. *)
Theorem missing_fields_get_defaults
    (url : str) (st : state) (w : env outside) (d : gmap str pyval) :
  ydl_extract_info metadata_ydl_opts url (world st) = (w, Returns (Some d)) ->
  size d <> 0%nat ->
  (forall key, key ∈ [py "title"; py "duration"; py "thumbnail";
                      py "uploader"; py "view_count"; py "formats"] ->
               d !! key = None) ->
  snd (extract_metadata url st)
  = Returns (Some (Metadata (PStr (py "Unknown")) (PInt 0) (PStr [])
                     (PStr (py "Unknown")) (PInt 0)
                     (Platform.get_platform_name url) url (PList []))).
Proof.
  intros Hcall Hsize Hnone.
  assert (Hk : forall key, key ∈ [py "title"; py "duration"; py "thumbnail";
                                  py "uploader"; py "view_count"; py "formats"] ->
               forall v, dict_get d key v = v).
  { intros key Hin v. unfold dict_get. by rewrite (Hnone key Hin). }
  unfold extract_metadata, bind at 1. log_step.
  unfold try_except, bind, external. cbn [world session page terminal].
  rewrite Hcall. unfold info_truthy.
  destruct (size d =? 0)%nat eqn:Es; [by apply Nat.eqb_eq in Es|].
  change (negb false) with true. cbv beta iota zeta. log_step.
  unfold ret. simpl.
  rewrite !Hk by (rewrite !elem_of_cons; tauto). reflexivity.
Qed.

(** X23. Whatever is selected as the type, if it is not the video label
    the download is an audio download: the selector passed to the library
    is ['bestaudio/best'] and no merge container is set. *)
Theorem other_types_download_audio (inp : inputs) (temp_dir : str) :
  download_type inp <> video_label ->
  let opts := build_ydl_options temp_dir (dl_type inp) (extension inp)
                (quality inp) in
  opts !! py "format" = Some (PStr (py "bestaudio/best")) /\
  opts !! py "merge_output_format" = Some PNone.
Proof.
  intros Htype. cbv zeta. unfold dl_type. rewrite decide_False by done.
  unfold build_ydl_options.
  rewrite !decide_False
    by (let H := fresh in intros H; vm_compute in H; discriminate H).
  simpl list_to_map.
  split;
    repeat first
      [ rewrite lookup_insert_eq
      | rewrite lookup_insert_ne
          by (let H := fresh in intros H; vm_compute in H; discriminate H) ];
    reflexivity.
Qed.

End OrchestratorMore.

Section OrchestratorRuns.

Import Options World Orchestrator App Demo.

Lemma download_content_touches_only_scratch_witness :
  let E0 := externals [(py "clip.mp4", File clip)] (Returns tt) (Returns None) in
  let st := @start E0 (Env {[ py "/home/app" := [] ]} tt) no_session in
  exists fetched,
    @fetch_of_call E0 video_url (py "video") (py "mp4") (py "best") st
    = (fetched, Returns tt) /\
    fs (world (fst (@download_content plain_unicode E0 video_url (py "video") (py "mp4")
                      (py "best") st)))
    = {[ py "/home/app" := [] ]}.
Proof.
  cbv zeta. eexists. split; [reflexivity|].
  rewrite (@download_content_touches_only_scratch plain_unicode
             (externals [(py "clip.mp4", File clip)] (Returns tt) (Returns None))
             _ _ _ _ _ _ _ eq_refl).
  vm_compute. reflexivity.
Defined.

Lemma download_content_first_entry_directory_witness :
  let E0 := externals [(py "parts", Dir []); (py "clip.mp4", File clip)]
              (Returns tt) (Returns None) in
  let st := @start E0 empty_world no_session in
  exists fetched,
    @fetch_of_call E0 video_url (py "video") (py "mp4") (py "best") st
    = (fetched, Returns tt) /\
    listing fetched tmp = [(py "parts", Dir []); (py "clip.mp4", File clip)] /\
    snd (@download_content plain_unicode E0 video_url (py "video") (py "mp4") (py "best") st)
    = Raises (Exception (py "[Errno 21] Is a directory: '/tmp/tmpab12/parts'")).
Proof.
  cbv zeta. eexists. split; [reflexivity|].
  split; [vm_compute; reflexivity|].
  rewrite (@download_content_first_entry_directory plain_unicode
             (externals [(py "parts", Dir []); (py "clip.mp4", File clip)]
                (Returns tt) (Returns None))
             _ _ _ _ _ _ (py "parts") [] [(py "clip.mp4", File clip)] eq_refl);
    vm_compute; reflexivity.
Defined.

(** The same with a directory whose name has a single quote: the text
    of the error has the path between double quotes. *)
Example first_entry_a_quoted_directory :
  let E0 := externals [(py "it's", Dir []); (py "clip.mp4", File clip)]
              (Returns tt) (Returns None) in
  snd (@download_content plain_unicode E0 video_url (py "video") (py "mp4")
         (py "best") (@start E0 empty_world no_session))
  = Raises (Exception (py "[Errno 21] Is a directory: " ++ dquote
                       ++ py "/tmp/tmpab12/it's" ++ dquote)).
Proof. vm_compute. reflexivity. Qed.

Lemma download_content_fetch_raises_witness :
  let E0 := externals [(py "clip.mp4.part", File clip)] (Raises forbidden)
              (Returns None) in
  let st := @start E0 empty_world no_session in
  exists fetched,
    @fetch_of_call E0 video_url (py "video") (py "mp4") (py "best") st
    = (fetched, Raises forbidden) /\
    snd (@download_content plain_unicode E0 video_url (py "video") (py "mp4") (py "best") st)
    = Raises forbidden.
Proof.
  cbv zeta. eexists. split; [reflexivity|].
  exact (@download_content_fetch_raises plain_unicode
           (externals [(py "clip.mp4.part", File clip)] (Raises forbidden)
              (Returns None))
           _ _ _ _ _ _ _ eq_refl).
Defined.

Lemma extract_metadata_logs_and_reraises_witness :
  let E0 := externals [] (Returns tt) (Raises forbidden) in
  let st := @start E0 empty_world no_session in
  @ydl_extract_info E0 (@metadata_ydl_opts) video_url (world st)
  = (empty_world, Raises forbidden) /\
  exn_is_exception forbidden = true /\
  snd (@extract_metadata plain_unicode E0 video_url st) = Raises forbidden /\
  terminal (fst (@extract_metadata plain_unicode E0 video_url st))
  = [ (py "info",
       py "Extracting metadata from: https://www.youtube.com/watch?v=abc123");
      (py "error",
       py "Error extracting metadata: ERROR: HTTP Error 403: Forbidden") ].
Proof.
  cbv zeta. split; [reflexivity|]. split; [reflexivity|].
  rewrite (@extract_metadata_logs_and_reraises plain_unicode
             (externals [] (Returns tt) (Raises forbidden))
             video_url _ _ _ eq_refl eq_refl).
  split; [reflexivity | vm_compute; reflexivity].
Defined.

Lemma empty_result_is_reported_witness :
  let E0 := externals [] (Returns tt) (Returns (Some ∅)) in
  let st := @start E0 empty_world with_file in
  @info_truthy (Some ∅) = false /\
  session (fst (@handle_analyze plain_unicode E0 press_analyze st)) = with_file.
Proof.
  cbv zeta. split; [reflexivity|].
  destruct (@empty_result_is_reported plain_unicode
              (externals [] (Returns tt) (Returns (Some ∅)))
              press_analyze
              (@start (externals [] (Returns tt) (Returns (Some ∅)))
                 empty_world with_file)
              empty_world (Some ∅) eq_refl eq_refl
              ltac:(vm_compute; reflexivity) eq_refl eq_refl)
    as (_ & _ & Hsession & _).
  exact Hsession.
Defined.

Lemma missing_fields_get_defaults_witness :
  let d : gmap str pyval := {[ py "id" := PStr (py "abc123") ]} in
  let E0 := externals [] (Returns tt) (Returns (Some d)) in
  let st := @start E0 empty_world no_session in
  size d <> 0%nat /\
  snd (@extract_metadata plain_unicode E0 video_url st)
  = Returns (Some (Metadata (PStr (py "Unknown")) (PInt 0) (PStr [])
                     (PStr (py "Unknown")) (PInt 0) (py "YouTube") video_url
                     (PList []))).
Proof.
  cbv zeta.
  assert (Hsize : size ({[ py "id" := PStr (py "abc123") ]} : gmap str pyval)
                  <> 0%nat) by (vm_compute; discriminate).
  split; [exact Hsize|].
  rewrite (@missing_fields_get_defaults plain_unicode
             (externals [] (Returns tt)
                (Returns (Some {[ py "id" := PStr (py "abc123") ]})))
             video_url
             (@start (externals [] (Returns tt)
                        (Returns (Some {[ py "id" := PStr (py "abc123") ]})))
                     empty_world no_session)
             empty_world {[ py "id" := PStr (py "abc123") ]}
             eq_refl Hsize).
  - vm_compute. reflexivity.
  - intros key Hin. apply list_elem_of_In in Hin. cbv in Hin.
    repeat (destruct Hin as [<-|Hin]; [vm_compute; reflexivity|]).
    destruct Hin.
Defined.

Lemma other_types_download_audio_witness :
  download_type (Inputs video_url false (py "audio") (py "mp3") (py "best") true)
  <> video_label /\
  build_ydl_options tmp
    (dl_type (Inputs video_url false (py "audio") (py "mp3") (py "best") true))
    (py "mp3") (py "best") !! py "format"
  = Some (PStr (py "bestaudio/best")).
Proof.
  assert (H : download_type
                (Inputs video_url false (py "audio") (py "mp3") (py "best") true)
              <> video_label).
  { intros H. vm_compute in H. discriminate H. }
  split; [exact H|].
  exact (proj1 (other_types_download_audio _ tmp H)).
Defined.

End OrchestratorRuns.

(* ===================================================================== *)
(** * Letter case in the platform identifier; the file after a new
      analysis *)
(* ===================================================================== *)

Section PlatformCase.

Import Platform.
Context {U : Unicode}.

Lemma platform_loop_by_lower items (a b : str) :
  lower a = lower b -> platform_loop items a = platform_loop items b.
Proof.
  intros Hab. induction items as [|[d n] items IH]; simpl; [done|].
  by rewrite Hab, IH.
Qed.

Lemma ascii_lower_idempotent c : ascii_lower (ascii_lower c) = ascii_lower c.
Proof.
  unfold ascii_lower.
  destruct ((65 <=? c) && (c <=? 90)) eqn:E; [|by rewrite E].
  apply andb_true_iff in E as [E1%N.leb_le E2%N.leb_le].
  destruct ((65 <=? c + 32) && (c + 32 <=? 90)) eqn:E'; [|done].
  apply andb_true_iff in E' as [_ E3%N.leb_le]. lia.
Qed.

(** X24. For a URL made of ASCII code points the platform does not
    depend on the case of the letters: two such URLs that differ in case
    only get the same label. *)
Theorem get_platform_name_ignores_case (a b : str) :
  Forall (fun c => is_ascii c = true) a ->
  Forall (fun c => is_ascii c = true) b ->
  ascii_lower <$> a = ascii_lower <$> b ->
  get_platform_name a = get_platform_name b.
Proof.
  intros Ha Hb Hab. unfold get_platform_name.
  rewrite (platform_loop_by_lower platforms a b); [done|].
  unfold lower. by rewrite !lower_from_ascii, Hab.
Qed.

End PlatformCase.

Section StaleFile.

Import Options World Orchestrator App Delivery.
Context {U : Unicode} {E : Externals}.

(** X25. After a run in which a new link is analysed with success and
    no download succeeds, no file is offered for download any more, even
    if one was offered before: the file of the previous link is not
    served for the new one. *)
Theorem new_analysis_withdraws_the_file
    (inp : inputs) (st : state) (md : metadata) :
  analysis_succeeds inp st md ->
  (forall name data, ~ download_succeeds inp st name data) ->
  offered_download (session (after inp st)) = Returns None.
Proof.
  intros Hok Hno. rewrite after_unfold.
  destruct (handle_analyze_success inp st md Hok) as [Hret Hs1].
  unfold download_succeeds in Hno.
  destruct (handle_analyze inp st) as [st1 r]. simpl in Hret, Hs1, Hno.
  subst r. rewrite Hs1. cbn [ss_metadata].
  destruct (handle_download_session md inp st1)
    as [-> | (name & data & Hbtn & Hdl & _)]; [by rewrite Hs1|].
  exfalso. apply (Hno name data). exists md. by rewrite Hs1.
Qed.

End StaleFile.

Section LastRuns.

Import Options World Orchestrator App Delivery Demo.

Lemma get_platform_name_ignores_case_witness :
  Forall (fun c => is_ascii c = true) (py "HTTPS://YOUTU.BE/abc") /\
  Forall (fun c => is_ascii c = true) (py "https://youtu.be/ABC") /\
  ascii_lower <$> py "HTTPS://YOUTU.BE/abc" = ascii_lower <$> py "https://youtu.be/ABC" /\
  @Platform.get_platform_name plain_unicode (py "HTTPS://YOUTU.BE/abc")
  = @Platform.get_platform_name plain_unicode (py "https://youtu.be/ABC").
Proof.
  assert (H1 : Forall (fun c => is_ascii c = true) (py "HTTPS://YOUTU.BE/abc"))
    by (by repeat constructor).
  assert (H2 : Forall (fun c => is_ascii c = true) (py "https://youtu.be/ABC"))
    by (by repeat constructor).
  assert (H3 : ascii_lower <$> py "HTTPS://YOUTU.BE/abc"
               = ascii_lower <$> py "https://youtu.be/ABC") by reflexivity.
  split; [exact H1|]. split; [exact H2|]. split; [exact H3|].
  exact (@get_platform_name_ignores_case plain_unicode _ _ H1 H2 H3).
Defined.

Lemma new_analysis_withdraws_the_file_witness :
  let E0 := externals [] (Returns tt) (Returns (Some some_info)) in
  let st := @start E0 empty_world with_file in
  (exists offer, @offered_download plain_unicode (session st)
                 = Returns (Some offer)) /\
  @analysis_succeeds plain_unicode E0 press_analyze st some_metadata /\
  @offered_download plain_unicode
    (session (@after plain_unicode E0 press_analyze st)) = Returns None.
Proof.
  cbv zeta.
  assert (Hok : let E0 := externals [] (Returns tt) (Returns (Some some_info)) in
                @analysis_succeeds plain_unicode E0 press_analyze
                  (@start E0 empty_world with_file) some_metadata).
  { unfold analysis_succeeds. split; [reflexivity|]. split; [reflexivity|].
    split; vm_compute; reflexivity. }
  assert (Hno : let E0 := externals [] (Returns tt) (Returns (Some some_info)) in
                forall name data,
                  ~ @download_succeeds plain_unicode E0 press_analyze
                      (@start E0 empty_world with_file) name data).
  { intros E0 name data (md & _ & _ & Hbtn & _). discriminate Hbtn. }
  split; [eexists; reflexivity|]. split; [exact Hok|].
  exact (new_analysis_withdraws_the_file _ _ _ Hok Hno).
Defined.

End LastRuns.
